(** * Bare-metal smoke tests of the vsdfpga RISC-V SoC

    A shallow embedding of the three C test programs

    - [TASK2/source/gpio_test.c]             (GPIO readback test),
    - [TASK3/sourcefiles/gpio_ctrl_test.c]   (GPIO direction/write/read test),
    - [TASK4/source/timer_test2.c]           (periodic timer test),

    as interaction trees over the events a bare-metal program can perform on
    its environment: volatile loads and stores at fixed addresses, the
    compiler barrier and the [ecall] trap.  A fuel-indexed, executable runner
    plays a tree against a device model and records the register trace, from
    which the UART character stream is read off. *)

From Stdlib Require Import ZArith List Ascii String Lia Bool.
From ITree Require Import ITree.
Import ListNotations.
Import ITreeNotations.
Local Open Scope Z_scope.
Local Open Scope itree_scope.

(** ** 32-bit values *)

Definition wrap32 (v : Z) : Z := v mod 2 ^ 32.

Definition is_u32 (v : Z) : Prop := 0 <= v < 2 ^ 32.

(** ** Events of a bare-metal program *)

(** [Load] and [Store] are the accesses through a pointer to
    [volatile uint32_t], [Barrier] is [asm volatile ("" ::: "memory")],
    [Ecall] is [asm volatile ("ecall")], and [OutOfBounds] is the undefined
    behaviour of reading past the end of an array, from which no run goes
    on. *)
Variant mmioE : Type -> Type :=
| Load (addr : Z) : mmioE Z
| Store (addr val : Z) : mmioE unit
| Barrier : mmioE unit
| Ecall : mmioE unit
| OutOfBounds : mmioE Empty_set.

Definition load (addr : Z) : itree mmioE Z := ITree.trigger (Load addr).
Definition store (addr val : Z) : itree mmioE unit := ITree.trigger (Store addr val).
Definition barrier : itree mmioE unit := ITree.trigger Barrier.
Definition ecall : itree mmioE unit := ITree.trigger Ecall.
Definition out_of_bounds {R} : itree mmioE R :=
  Vis OutOfBounds (fun x : Empty_set => match x with end).

(** ** C arrays of [char] *)

(** An array of [char] is the list of its bytes; reading index [idx] outside
    of it is undefined behaviour and yields [None]. *)
Definition array_get (arr : list ascii) (idx : Z) : option ascii :=
  if idx <? 0 then None else nth_error arr (Z.to_nat idx).

(** The object a string literal denotes: its characters and the terminator. *)
Definition cstr (s : string) : list ascii := list_ascii_of_string s ++ [zero].

(** The line feed, written ['\n'] in C. *)
Definition LF : ascii := "010"%char.

(** [(uint32_t)c] for a [char c]; [char] is unsigned in the RISC-V ABI. *)
Definition char_code (c : ascii) : Z := Z.of_N (N_of_ascii c).

(** ** Observations and device models *)

Variant obs : Type :=
| OLoad (addr val : Z)
| OStore (addr val : Z)
| OBarrier
| OEcall.

Variant outcome (R : Type) : Type :=
| Done (r : R)
| Fault
| OutOfFuel.
Arguments Done {R} r.
Arguments Fault {R}.
Arguments OutOfFuel {R}.

(** What the hardware answers to loads and how it reacts to stores. *)
Class Device (D : Type) : Type := {
  dev_load : Z -> D -> Z * D;
  dev_store : Z -> Z -> D -> D
}.

Record result (D R : Type) : Type := mkResult {
  trace : list obs;
  final : D;
  out : outcome R;
  left_fuel : nat
}.
Arguments mkResult {D R}.
Arguments trace {D R}.
Arguments final {D R}.
Arguments out {D R}.
Arguments left_fuel {D R}.

Definition emit {D R} (o : obs) (r : result D R) : result D R :=
  mkResult (o :: trace r) (final r) (out r) (left_fuel r).

(** What one node of a tree does to the device, [rec] running the rest of
    the tree: a load is answered by the device, 32 bits wide, a store is
    handed to it, the barrier and the trap only show in the trace. *)
Definition run_node {D} `{Device D} {R}
           (rec : itree mmioE R -> D -> result D R)
           (n : nat) (ot : itree' mmioE R) (d : D) : result D R :=
  match ot with
  | RetF r => mkResult [] d (Done r) (S n)
  | TauF t' => rec t' d
  | VisF e k =>
    match e in mmioE X return (X -> itree mmioE R) -> result D R with
    | Load a => fun k =>
        let '(v, d') := dev_load a d in
        emit (OLoad a (wrap32 v)) (rec (k (wrap32 v)) d')
    | Store a v => fun k => emit (OStore a v) (rec (k tt) (dev_store a v d))
    | Barrier => fun k => emit OBarrier (rec (k tt) d)
    | Ecall => fun k => emit OEcall (rec (k tt) d)
    | OutOfBounds => fun _ => mkResult [] d Fault n
    end k
  end.

(** One unit of fuel is spent per event and per silent step; returning is
    free but has to be observed. *)
Fixpoint run {D} `{Device D} {R} (fuel : nat) (t : itree mmioE R) (d : D)
  : result D R :=
  match fuel with
  | O => mkResult [] d OutOfFuel O
  | S n => run_node (run n) n (observe t) d
  end.

(** Sequencing of results: the second run starts where the first stopped. *)
Definition and_then {D R T} (r : result D R) (k : R -> nat -> D -> result D T)
  : result D T :=
  match out r with
  | Done x =>
    let r2 := k x (left_fuel r) (final r) in
    mkResult (trace r ++ trace r2) (final r2) (out r2) (left_fuel r2)
  | Fault => mkResult (trace r) (final r) Fault (left_fuel r)
  | OutOfFuel => mkResult (trace r) (final r) OutOfFuel (left_fuel r)
  end.

(** [exec t d c tr d' r]: from device state [d], [t] performs the [c] events
    and silent steps of [tr], leaves the device in [d'] and returns [r],
    whatever fuel is left over. *)
Definition exec {D} `{Device D} {R} (t : itree mmioE R) (d : D) (c : nat)
           (tr : list obs) (d' : D) (r : R) : Prop :=
  forall n, run (S (c + n)) t d = mkResult tr d' (Done r) (S n).

(** Feeding a list of values to one register. *)
Definition feed {D} `{Device D} (a : Z) (vs : list Z) (d : D) : D :=
  fold_left (fun d v => dev_store a v d) vs d.

(** The characters the UART received: the stores to its data register. *)
Definition uart_chars (uart : Z) (tr : list obs) : list Z :=
  flat_map (fun o => match o with
                     | OStore a v => if a =? uart then [v] else []
                     | _ => []
                     end) tr.

Definition codes (s : string) : list Z := map char_code (list_ascii_of_string s).

(** The stores that send the characters [cs] to the UART at [uart]. *)
Definition uart_stores (uart : Z) (cs : list ascii) : list obs :=
  map (fun c => OStore uart (char_code c)) cs.

(** The indices [n - 1, ..., 0] a loop counting down from [n - 1] visits. *)
Fixpoint countdown (n : nat) : list Z :=
  match n with
  | O => []
  | S i => Z.of_nat i :: countdown i
  end.

(** ** Hexadecimal text, in the words of the specification

    These definitions say what "the 8-digit hex encoding" of a value is,
    independently of the code that prints it; the printers are compared with
    them below. *)

(** The uppercase digit of a nibble: ['0' + n] below ten, ['A' + n - 10] from
    ten on. *)
Definition hex_digit (n : Z) : ascii :=
  ascii_of_N (Z.to_N (if n <? 10 then 48 + n else 55 + n)).

(** The [k]-th nibble of [v], counted from the least significant one. *)
Definition nibble (v : Z) (k : Z) : Z := (v / 16 ^ k) mod 16.

(** The 8-digit hex encoding of a 32-bit value, most significant nibble
    first. *)
Definition hex8 (v : Z) : list ascii :=
  map (fun k => hex_digit (nibble v k)) [7; 6; 5; 4; 3; 2; 1; 0].

(** Reading uppercase hexadecimal text back, most significant digit first. *)
Definition digit_value (c : ascii) : option Z :=
  let n := char_code c in
  if (48 <=? n) && (n <=? 57) then Some (n - 48)
  else if (65 <=? n) && (n <=? 70) then Some (n - 55)
  else None.

Definition hex_value (cs : list ascii) : option Z :=
  fold_left (fun acc c =>
               match acc, digit_value c with
               | Some a, Some x => Some (16 * a + x)
               | _, _ => None
               end) cs (Some 0).

(** The characters of a string before its terminator. *)
Fixpoint until_nul (s : list ascii) : list ascii :=
  match s with
  | [] => []
  | c :: s' => if Ascii.eqb c zero then [] else c :: until_nul s'
  end.

(** * TASK2/source/gpio_test.c *)

Module GpioTest.

Definition IO_BASE : Z := 0x00400000.
Definition UART_ADDR : Z := IO_BASE + 0x04.
Definition GPIO_ADDR : Z := IO_BASE + 0x20.

Definition uart_putc (c : ascii) : itree mmioE unit :=
  store UART_ADDR (char_code c).

Definition hex : list ascii := cstr "0123456789ABCDEF".

(** The index expression [(v >> (i * 4)) & 0xF]. *)
Definition hex_index (v i : Z) : Z := Z.land (Z.shiftr v (i * 4)) 0xF.

(** The loop [for (int i = 7; i >= 0; i--)], entered with [i = n - 1]. *)
Fixpoint print_hex_loop (n : nat) (v : Z) : itree mmioE unit :=
  match n with
  | O => Ret tt
  | S i =>
    match array_get hex (hex_index v (Z.of_nat i)) with
    | Some c => uart_putc c
    | None => out_of_bounds
    end ;;
    print_hex_loop i v
  end.

Definition print_hex (v : Z) : itree mmioE unit := print_hex_loop 8 v.

(** [s] is the memory from the pointer to the end of its object. *)
Fixpoint print_string (s : list ascii) : itree mmioE unit :=
  match s with
  | [] => out_of_bounds
  | c :: s' =>
    if Ascii.eqb c zero then Ret tt
    else uart_putc c ;; print_string s'
  end.

Definition main : itree mmioE Z :=
  store GPIO_ADDR 0xA5 ;;
  barrier ;;
  val <- load GPIO_ADDR ;;
  print_string (cstr "GPIO readback = ") ;;
  print_hex val ;;
  print_string (cstr (String LF EmptyString)) ;;
  ecall ;;
  Ret 0.

(** The entry stub: [main(); while (1);]. *)
Definition _start : itree mmioE Empty_set :=
  main ;;
  ITree.forever (Ret tt).

End GpioTest.

(** * io.h *)

Module IoH.

(** The two printers that [io.h] declares and the tests link against. *)
Class Printers : Type := {
  print_string : list ascii -> itree mmioE unit;
  print_hex : Z -> itree mmioE unit
}.

(** Modelled from the spec: the UART data register of section 6, at offset
    [0x04] of the [0x00400000] region ([io.h] and the definitions behind it
    are not among the sources). *)
Definition UART_DATA : Z := 0x00400000 + 0x04.

(** Modelled from the spec: [put_char(c)] of section 4.2, which writes the
    numeric code of one character to the UART data address. *)
Definition put_char (c : ascii) : itree mmioE unit :=
  store UART_DATA (char_code c).

(** Modelled from the spec: a sequence of characters emitted through
    [put_char], in order. *)
Fixpoint put_chars (cs : list ascii) : itree mmioE unit :=
  match cs with
  | [] => Ret tt
  | c :: cs' => put_char c ;; put_chars cs'
  end.

(** Modelled from the spec: [print_string(s)] of section 4.2, which writes
    each character of a null-terminated sequence in order and stops at the
    terminator. *)
Definition spec_print_string (s : list ascii) : itree mmioE unit :=
  put_chars (until_nul s).

(** Modelled from the spec: [print_hex(v)] of section 4.2, which emits the 8
    uppercase hexadecimal digits of [v], most significant nibble first and
    without prefix, through [put_char]. *)
Definition spec_print_hex (v : Z) : itree mmioE unit :=
  put_chars (hex8 v).

(** Modelled from the spec: the printers behind [io.h], as section 4.2
    describes them. *)
#[global] Instance spec_printers : Printers := {
  print_string := spec_print_string;
  print_hex := spec_print_hex
}.

End IoH.

(** * TASK3/sourcefiles/gpio_ctrl_test.c *)

Module GpioCtrlTest.

Definition GPIO_BASE : Z := 0x00400020.
Definition GPIO_DATA : Z := GPIO_BASE + 0x00.
Definition GPIO_DIR : Z := GPIO_BASE + 0x04.
Definition GPIO_READ : Z := GPIO_BASE + 0x08.

(** [for (volatile int i = 0; i < 1000; i++);]: one turn of the loop tests
    [i < 1000] and either goes on with [i + 1] or leaves. *)
Definition delay_step (i : Z) : itree mmioE (Z + unit) :=
  if i <? 1000 then Ret (inl (i + 1)) else Ret (inr tt).

Definition delay : itree mmioE unit := ITree.iter delay_step 0.

Definition main `{IoH.Printers} : itree mmioE Z :=
  store GPIO_DIR 0x0000001F ;;
  store GPIO_DATA 0x0000000A ;;
  delay ;;
  val <- load GPIO_READ ;;
  IoH.print_string (cstr "GPIO READ = ") ;;
  IoH.print_hex val ;;
  IoH.print_string (cstr (String LF EmptyString)) ;;
  ecall ;;
  Ret 0.

End GpioCtrlTest.

(** * TASK4/source/timer_test2.c *)

Module TimerTest.

Definition TIMER_BASE : Z := 0x00400040.
Definition TIMER_CTRL : Z := TIMER_BASE + 0x00.
Definition TIMER_LOAD : Z := TIMER_BASE + 0x04.
Definition TIMER_STAT : Z := TIMER_BASE + 0x0C.

(** The body of [while (1)]. *)
Definition poll : itree mmioE unit :=
  stat <- load TIMER_STAT ;;
  if negb (Z.land stat 0x1 =? 0) then store TIMER_STAT 0x1 else Ret tt.

Definition poll_loop : itree mmioE Z := ITree.forever poll.

Definition main : itree mmioE Z :=
  store TIMER_CTRL 0 ;;
  store TIMER_LOAD 12000000 ;;
  store TIMER_CTRL 0x3 ;;
  poll_loop.

End TimerTest.

(** The printers gpio_test.c defines for itself have the types [io.h]
    declares. *)
Definition gpio_test_printers : IoH.Printers := {|
  IoH.print_string := GpioTest.print_string;
  IoH.print_hex := GpioTest.print_hex
|}.

(** * Device models *)

(** The state of a peripheral that is nothing but registers. *)
Definition regfile : Type := Z -> Z.

(** Modelled from the spec: the idealized read-back peripheral of section 8,
    where a read returns the value last written to the same register;
    registers never written read as they were. *)
#[global] Instance readback_dev : Device regfile := {
  dev_load a d := (d a, d);
  dev_store a v d := fun a' => if a' =? a then v else d a'
}.

(** A device that answers every load with the same value and ignores
    stores. *)
Record stuck : Type := Stuck { stuck_at : Z }.

#[global] Instance stuck_dev : Device stuck := {
  dev_load _ d := (stuck_at d, d);
  dev_store _ _ d := d
}.

(** Modelled from the spec: the write-1-to-clear convention of the glossary,
    where writing a 1 to a bit clears it and writing a 0 has no effect. *)
Definition w1c (old written : Z) : Z := Z.land old (Z.lnot written).

(** The state of a timer reduced to its status register. *)
Record timer_hw : Type := TimerHw { status : Z }.

(** Modelled from the spec: a timer whose status register, at [TIMER_STAT],
    is write-1-to-clear (section 3); the other registers ignore stores and
    read as zero. *)
#[global] Instance w1c_timer : Device timer_hw := {
  dev_load a d :=
    (if a =? TimerTest.TIMER_STAT then status d else 0, d);
  dev_store a v d :=
    if a =? TimerTest.TIMER_STAT then TimerHw (w1c (status d) v) else d
}.

(** The polling discipline of the timer loop, as a check on traces: a load of
    the status register, followed by a store of 1 to it exactly when bit 0 of
    the value read is set.  A trace may stop between the two. *)
Fixpoint polling (tr : list obs) : bool :=
  match tr with
  | [] => true
  | OLoad a v :: tr' =>
    (a =? TimerTest.TIMER_STAT) &&
    (if Z.testbit v 0 then
       match tr' with
       | [] => true
       | OStore a' v' :: tr'' =>
         (a' =? TimerTest.TIMER_STAT) && (v' =? 1) && polling tr''
       | _ => false
       end
     else polling tr')
  | _ => false
  end.

(** An access to the timer status register that the loop may make. *)
Definition status_access (o : obs) : Prop :=
  match o with
  | OLoad a _ => a = TimerTest.TIMER_STAT
  | OStore a v => a = TimerTest.TIMER_STAT /\ v = 1
  | _ => False
  end.

(** A store that, if it goes to the timer status register, writes 1. *)
Definition status_store_is_one (o : obs) : Prop :=
  match o with
  | OStore a v => a = TimerTest.TIMER_STAT -> v = 1
  | _ => True
  end.

(** An observation that stays within the registers [regs]. *)
Definition touches (regs : list Z) (o : obs) : Prop :=
  match o with
  | OLoad a _ => In a regs
  | OStore a _ => In a regs
  | _ => True
  end.

(** The values a trace read from register [a], in order. *)
Definition reads_of (a : Z) (tr : list obs) : list Z :=
  flat_map (fun o => match o with
                     | OLoad a' v => if a' =? a then [v] else []
                     | _ => []
                     end) tr.

(** The line a GPIO test sends to the UART for the value [val] it read. *)
Definition report (label : string) (val : Z) : list Z :=
  codes label ++ map char_code (hex8 val) ++ [char_code LF].

(** * The runner *)

Lemma out_emit {D R} o (r : result D R) : out (emit o r) = out r.
Proof. reflexivity. Qed.

Lemma trace_emit {D R} o (r : result D R) : trace (emit o r) = o :: trace r.
Proof. reflexivity. Qed.

Lemma final_emit {D R} o (r : result D R) : final (emit o r) = final r.
Proof. reflexivity. Qed.

Section Runner.

Context {D : Type} `{Device D}.

Lemma observe_bind {R T} (t : itree mmioE R) (k : R -> itree mmioE T) :
  observe (ITree.bind t k) =
  match observe t with
  | RetF r => observe (k r)
  | TauF t' => TauF (ITree.bind t' k)
  | VisF e h => VisF e (fun x => ITree.bind (h x) k)
  end.
Proof.
  change (observe (ITree.bind t k))
    with (observe (match observe t with
                   | RetF r => k r
                   | TauF t' => Tau (ITree.bind t' k)
                   | VisF e h => Vis e (fun x => ITree.bind (h x) k)
                   end)).
  now destruct (observe t).
Qed.

Lemma observe_iter {I R} (step : I -> itree mmioE (I + R)) (i : I) :
  observe (ITree.iter step i) =
  observe (ITree.bind (step i)
             (fun lr => match lr with
                        | inl l => Tau (ITree.iter step l)
                        | inr r => Ret r
                        end)).
Proof. reflexivity. Qed.

Lemma observe_forever {R T} (t : itree mmioE R) :
  observe (@ITree.forever mmioE R T t) =
  observe (ITree.bind t (fun _ => Tau (ITree.forever t))).
Proof. reflexivity. Qed.

(** The runner only looks at a tree through [observe]. *)
Lemma run_observe {R} (t u : itree mmioE R) fuel (d : D) :
  observe t = observe u -> run fuel t d = run fuel u d.
Proof. intros E. destruct fuel; simpl; [reflexivity | now rewrite E]. Qed.

Lemma run_S {R} (t : itree mmioE R) n (d : D) :
  run (S n) t d = run_node (run n) n (observe t) d.
Proof. reflexivity. Qed.

Lemma and_then_emit {R T} o (r : result D R) (k : R -> nat -> D -> result D T) :
  and_then (emit o r) k = emit o (and_then r k).
Proof. unfold and_then, emit; simpl. now destruct (out r). Qed.

Lemma run_bind {R T} (t : itree mmioE R) (k : R -> itree mmioE T) fuel (d : D) :
  run fuel (ITree.bind t k) d =
  and_then (run fuel t d) (fun x n d' => run n (k x) d').
Proof.
  revert t d. induction fuel as [|n IH]; intros t d; [reflexivity|].
  rewrite !run_S, observe_bind.
  destruct (observe t) as [r | t' | X e h].
  - rewrite <- run_S. unfold and_then; cbn -[run].
    now destruct (run (S n) (k r) d).
  - apply IH.
  - destruct e; simpl; try (rewrite IH; now rewrite and_then_emit).
    + destruct (dev_load addr d) as [v d']. rewrite IH. now rewrite and_then_emit.
    + reflexivity.
Qed.

Lemma run_ret_bind {R T} (x : R) (k : R -> itree mmioE T) fuel (d : D) :
  run fuel (ITree.bind (Ret x) k) d = run fuel (k x) d.
Proof. apply run_observe. now rewrite observe_bind. Qed.

(** ** Fuel *)

Lemma run_done_left {R} (t : itree mmioE R) fuel (d : D) r :
  out (run fuel t d) = Done r -> (0 < left_fuel (run fuel t d))%nat.
Proof.
  revert t d. induction fuel as [|n IH]; intros t d; simpl; [discriminate|].
  destruct (observe t) as [x | t' | X e h]; simpl.
  - lia.
  - apply IH.
  - destruct e; simpl; try apply IH.
    + destruct (dev_load addr d) as [v d']. simpl. apply IH.
    + discriminate.
Qed.

Lemma run_left_le {R} (t : itree mmioE R) fuel (d : D) :
  (left_fuel (run fuel t d) <= fuel)%nat.
Proof.
  revert t d. induction fuel as [|n IH]; intros t d; simpl; [lia|].
  destruct (observe t) as [x | t' | X e h]; simpl.
  - lia.
  - specialize (IH t' d). lia.
  - destruct e; simpl;
      try (match goal with |- (left_fuel (run n ?u ?d') <= _)%nat =>
             specialize (IH u d'); lia end).
    + destruct (dev_load addr d) as [v d']. simpl.
      specialize (IH (h (wrap32 v)) d'). lia.
    + lia.
Qed.

(** More fuel does not change a run that came to an end. *)
Lemma run_more_fuel {R} (t : itree mmioE R) fuel m (d : D) :
  out (run fuel t d) <> OutOfFuel ->
  run (fuel + m) t d =
  mkResult (trace (run fuel t d)) (final (run fuel t d)) (out (run fuel t d))
           (left_fuel (run fuel t d) + m).
Proof.
  revert t d. induction fuel as [|n IH]; intros t d; simpl; [congruence|].
  destruct (observe t) as [x | t' | X e h]; simpl.
  - reflexivity.
  - apply IH.
  - destruct e; simpl; intros Hout;
      try (rewrite IH by exact Hout; reflexivity).
    + destruct (dev_load addr d) as [v d']. simpl in *.
      rewrite IH by exact Hout. reflexivity.
    + reflexivity.
Qed.

(** With more fuel a run only goes on: what it did before stays. *)
Lemma run_trace_prefix {R} (t : itree mmioE R) fuel m (d : D) :
  exists rest, trace (run (fuel + m) t d) = trace (run fuel t d) ++ rest.
Proof.
  revert t d. induction fuel as [|n IH]; intros t d.
  - now exists (trace (run m t d)).
  - cbn [Nat.add]. rewrite !run_S.
    destruct (observe t) as [x | t' | X e h]; cbn [run_node].
    + now exists [].
    + apply IH.
    + destruct e.
      * destruct (dev_load addr d) as [v d'].
        destruct (IH (h (wrap32 v)) d') as [rest Hr].
        exists rest. cbn. now rewrite Hr.
      * destruct (IH (h tt) (dev_store addr val d)) as [rest Hr].
        exists rest. cbn. now rewrite Hr.
      * destruct (IH (h tt) d) as [rest Hr]. exists rest. cbn. now rewrite Hr.
      * destruct (IH (h tt) d) as [rest Hr]. exists rest. cbn. now rewrite Hr.
      * now exists [].
Qed.

(** ** Terminating runs *)

Lemma exec_ret {R} (r : R) (d : D) : exec (Ret r) d 0 [] d r.
Proof. intros n. reflexivity. Qed.

Lemma exec_store a v (d : D) :
  exec (store a v) d 1 [OStore a v] (dev_store a v d) tt.
Proof. intros n. reflexivity. Qed.

Lemma exec_load a (d : D) :
  exec (load a) d 1 [OLoad a (wrap32 (fst (dev_load a d)))]
       (snd (dev_load a d)) (wrap32 (fst (dev_load a d))).
Proof. intros n. simpl. now destruct (dev_load a d). Qed.

Lemma exec_barrier (d : D) : exec barrier d 1 [OBarrier] d tt.
Proof. intros n. reflexivity. Qed.

Lemma exec_ecall (d : D) : exec ecall d 1 [OEcall] d tt.
Proof. intros n. reflexivity. Qed.

Lemma exec_bind {R T} (t : itree mmioE R) (k : R -> itree mmioE T)
      (d d1 d2 : D) c1 c2 tr1 tr2 r1 r2 :
  exec t d c1 tr1 d1 r1 ->
  exec (k r1) d1 c2 tr2 d2 r2 ->
  exec (ITree.bind t k) d (c1 + c2) (tr1 ++ tr2) d2 r2.
Proof.
  intros H1 H2 n. rewrite run_bind.
  replace (S (c1 + c2 + n)) with (S (c1 + (c2 + n))) by lia.
  rewrite H1. unfold and_then; cbn -[run]. now rewrite H2.
Qed.

(** A terminating run is the same for every sufficient amount of fuel, and
    no smaller amount completes it. *)
Lemma exec_done {R} (t : itree mmioE R) (d d' : D) c tr r fuel x :
  exec t d c tr d' r ->
  out (run fuel t d) = Done x ->
  trace (run fuel t d) = tr /\ final (run fuel t d) = d' /\ x = r.
Proof.
  intros He Hd.
  assert (Hne : out (run fuel t d) <> OutOfFuel) by congruence.
  pose proof (run_more_fuel t fuel (S c) d Hne) as Hm.
  replace (fuel + S c)%nat with (S (c + fuel)) in Hm by lia.
  rewrite He in Hm. inversion Hm; subst. rewrite Hd in *.
  repeat split; congruence.
Qed.

Lemma exec_no_fault {R} (t : itree mmioE R) (d d' : D) c tr r fuel :
  exec t d c tr d' r -> out (run fuel t d) <> Fault.
Proof.
  intros He Hf.
  assert (Hne : out (run fuel t d) <> OutOfFuel) by congruence.
  pose proof (run_more_fuel t fuel (S c) d Hne) as Hm.
  replace (fuel + S c)%nat with (S (c + fuel)) in Hm by lia.
  rewrite He, Hf in Hm. discriminate.
Qed.

Lemma exec_needs_fuel {R} (t : itree mmioE R) (d d' : D) c tr r fuel :
  exec t d c tr d' r -> (fuel <= c)%nat -> out (run fuel t d) = OutOfFuel.
Proof.
  intros He Hle.
  destruct (out (run fuel t d)) as [x| |] eqn:Ho; [exfalso | exfalso |reflexivity].
  - assert (Hne : out (run fuel t d) <> OutOfFuel) by congruence.
    pose proof (run_more_fuel t fuel (S c - fuel) d Hne) as Hm.
    pose proof (run_done_left t fuel d x Ho) as Hl.
    replace (fuel + (S c - fuel))%nat with (S (c + 0)) in Hm by lia.
    rewrite He in Hm. apply (f_equal left_fuel) in Hm. cbn [left_fuel] in Hm. lia.
  - now apply (exec_no_fault t d d' c tr r fuel He).
Qed.

(** What holds of all events of a terminating run holds of the events of
    every run, however short. *)
Lemma exec_all_events {R} (t : itree mmioE R) (d d' : D) c tr r fuel
      (P : obs -> Prop) :
  exec t d c tr d' r -> Forall P tr -> Forall P (trace (run fuel t d)).
Proof.
  intros He Hall.
  destruct (run_trace_prefix t fuel (S c) d) as [rest Hr].
  replace (fuel + S c)%nat with (S (c + fuel)) in Hr by lia.
  rewrite He in Hr. cbn [trace] in Hr. rewrite Hr in Hall.
  now apply Forall_app in Hall.
Qed.

End Runner.

(** * Hexadecimal digits *)

Lemma hex_index_nibble v i : 0 <= i -> GpioTest.hex_index v i = nibble v i.
Proof.
  intros Hi. unfold GpioTest.hex_index, nibble.
  change 0xF with (Z.ones 4). rewrite Z.land_ones by lia.
  rewrite Z.shiftr_div_pow2 by lia.
  replace (i * 4) with (4 * i) by lia. rewrite Z.pow_mul_r by lia.
  reflexivity.
Qed.

Lemma nibble_range v k : 0 <= nibble v k < 16.
Proof. unfold nibble. apply Z.mod_pos_bound. lia. Qed.

Lemma countdown_In n k : 0 <= k < Z.of_nat n -> In k (countdown n).
Proof.
  induction n as [|n IH]; intros Hk; [lia|].
  destruct (Z.eq_dec k (Z.of_nat n)) as [-> | Hne]; [now left|].
  right. apply IH. lia.
Qed.

(** A property of nibbles is checked digit by digit. *)
Lemma nibble_cases (P : Z -> Prop) :
  Forall P (countdown 16) -> forall n, 0 <= n < 16 -> P n.
Proof.
  intros HP n Hn. rewrite Forall_forall in HP.
  apply HP, countdown_In. exact Hn.
Qed.

Lemma hex_lookup n :
  0 <= n < 16 -> array_get GpioTest.hex n = Some (hex_digit n).
Proof.
  revert n. apply nibble_cases.
  repeat (apply Forall_cons; [reflexivity|]). apply Forall_nil.
Qed.

Lemma digit_value_hex_digit n :
  0 <= n < 16 -> digit_value (hex_digit n) = Some n.
Proof.
  revert n. apply nibble_cases.
  repeat (apply Forall_cons; [reflexivity|]). apply Forall_nil.
Qed.

Lemma hex_digit_in n :
  0 <= n < 16 -> In (hex_digit n) (list_ascii_of_string "0123456789ABCDEF").
Proof.
  revert n. apply nibble_cases.
  repeat (apply Forall_cons; [simpl; tauto|]). apply Forall_nil.
Qed.

Lemma nibble_step v k :
  0 <= k -> v / 16 ^ k = 16 * (v / 16 ^ (k + 1)) + nibble v k.
Proof.
  intros Hk. unfold nibble.
  rewrite Z.pow_add_r, Z.pow_1_r by lia.
  rewrite <- Z.div_div by lia.
  apply Z.div_mod. lia.
Qed.

Lemma nibbles_sum v :
  is_u32 v ->
  16 * (16 * (16 * (16 * (16 * (16 * (16 * nibble v 7 + nibble v 6)
    + nibble v 5) + nibble v 4) + nibble v 3) + nibble v 2) + nibble v 1)
    + nibble v 0 = v.
Proof.
  unfold is_u32. intros Hv.
  assert (H8 : v / 16 ^ 8 = 0) by (apply Z.div_small; lia).
  pose proof (nibble_step v 0 ltac:(lia)) as H0.
  pose proof (nibble_step v 1 ltac:(lia)) as H1.
  pose proof (nibble_step v 2 ltac:(lia)) as H2.
  pose proof (nibble_step v 3 ltac:(lia)) as H3.
  pose proof (nibble_step v 4 ltac:(lia)) as H4.
  pose proof (nibble_step v 5 ltac:(lia)) as H5.
  pose proof (nibble_step v 6 ltac:(lia)) as H6.
  pose proof (nibble_step v 7 ltac:(lia)) as H7.
  change (0 + 1) with 1 in H0. change (1 + 1) with 2 in H1.
  change (2 + 1) with 3 in H2. change (3 + 1) with 4 in H3.
  change (4 + 1) with 5 in H4. change (5 + 1) with 6 in H5.
  change (6 + 1) with 7 in H6. change (7 + 1) with 8 in H7.
  rewrite Z.pow_0_r, Z.div_1_r in H0. lia.
Qed.

Lemma hex_value_hex8 v : is_u32 v -> hex_value (hex8 v) = Some v.
Proof.
  intros Hv. unfold hex_value, hex8. cbn [map fold_left].
  rewrite !digit_value_hex_digit by apply nibble_range.
  f_equal. pose proof (nibbles_sum v Hv). lia.
Qed.

(** * Traces *)

Lemma uart_chars_app a tr1 tr2 :
  uart_chars a (tr1 ++ tr2) = uart_chars a tr1 ++ uart_chars a tr2.
Proof. unfold uart_chars. apply flat_map_app. Qed.

Lemma uart_chars_stores a cs :
  uart_chars a (uart_stores a cs) = map char_code cs.
Proof.
  induction cs as [|c cs IH]; [reflexivity|].
  simpl. rewrite Z.eqb_refl. simpl. now f_equal.
Qed.

Lemma uart_stores_app a cs1 cs2 :
  uart_stores a (cs1 ++ cs2) = uart_stores a cs1 ++ uart_stores a cs2.
Proof. apply map_app. Qed.

Lemma until_nul_app cs rest :
  Forall (fun c => c <> zero) cs -> until_nul (cs ++ zero :: rest) = cs.
Proof.
  induction 1 as [|c cs Hc _ IH]; [reflexivity|].
  simpl. apply Ascii.eqb_neq in Hc. rewrite Hc. now f_equal.
Qed.

Lemma reads_of_app a tr1 tr2 :
  reads_of a (tr1 ++ tr2) = reads_of a tr1 ++ reads_of a tr2.
Proof. unfold reads_of. apply flat_map_app. Qed.

Lemma reads_of_uart_stores a u cs : reads_of a (uart_stores u cs) = [].
Proof. induction cs as [|c cs IH]; [reflexivity | exact IH]. Qed.

Lemma touches_uart_stores regs u cs :
  In u regs -> Forall (touches regs) (uart_stores u cs).
Proof.
  intros Hu. induction cs as [|c cs IH]; constructor; [exact Hu | exact IH].
Qed.

(** * Sequencing rules *)

Section Rules.

Context {D : Type} `{Device D}.

Lemma exec_seq {R T} (t : itree mmioE R) (k : R -> itree mmioE T)
      (d d1 d2 : D) c c1 c2 tr tr1 tr2 r1 r2 :
  exec t d c1 tr1 d1 r1 ->
  exec (k r1) d1 c2 tr2 d2 r2 ->
  c = (c1 + c2)%nat -> tr = tr1 ++ tr2 ->
  exec (ITree.bind t k) d c tr d2 r2.
Proof. intros H1 H2 -> ->. eapply exec_bind; eassumption. Qed.

Lemma exec_store_then {T} a v (k : unit -> itree mmioE T) (d d' : D) c tr r :
  exec (k tt) (dev_store a v d) c tr d' r ->
  exec (ITree.bind (store a v) k) d (S c) (OStore a v :: tr) d' r.
Proof.
  intros Hk. eapply exec_seq; [apply exec_store | exact Hk | |]; reflexivity.
Qed.

Lemma exec_barrier_then {T} (k : unit -> itree mmioE T) (d d' : D) c tr r :
  exec (k tt) d c tr d' r ->
  exec (ITree.bind barrier k) d (S c) (OBarrier :: tr) d' r.
Proof.
  intros Hk. eapply exec_seq; [apply exec_barrier | exact Hk | |]; reflexivity.
Qed.

Lemma exec_load_then {T} a (k : Z -> itree mmioE T) (d d' : D) c tr r :
  exec (k (wrap32 (fst (dev_load a d)))) (snd (dev_load a d)) c tr d' r ->
  exec (ITree.bind (load a) k) d (S c)
       (OLoad a (wrap32 (fst (dev_load a d))) :: tr) d' r.
Proof.
  intros Hk. eapply exec_seq; [apply exec_load | exact Hk | |]; reflexivity.
Qed.

Lemma feed_app a vs ws (d : D) : feed a (vs ++ ws) d = feed a ws (feed a vs d).
Proof. unfold feed. apply fold_left_app. Qed.

End Rules.

(** * The printers of gpio_test.c *)

Section GpioTestPrinters.

Context {D : Type} `{Device D}.

Import GpioTest.

Lemma exec_print_string cs rest (d : D) :
  Forall (fun c => c <> zero) cs ->
  exec (print_string (cs ++ zero :: rest)) d (List.length cs)
       (uart_stores UART_ADDR cs) (feed UART_ADDR (map char_code cs) d) tt.
Proof.
  intros Hcs. revert d. induction Hcs as [|c cs Hc _ IH]; intros d.
  - apply exec_ret.
  - simpl app. simpl print_string. apply Ascii.eqb_neq in Hc. rewrite Hc.
    apply exec_store_then. apply IH.
Qed.

Lemma exec_print_hex_loop n v (d : D) :
  exec (print_hex_loop n v) d n
       (uart_stores UART_ADDR (map (fun k => hex_digit (nibble v k)) (countdown n)))
       (feed UART_ADDR
             (map char_code (map (fun k => hex_digit (nibble v k)) (countdown n))) d)
       tt.
Proof.
  revert d. induction n as [|i IH]; intros d.
  - apply exec_ret.
  - simpl print_hex_loop.
    rewrite hex_index_nibble, hex_lookup by (try apply nibble_range; lia).
    apply exec_store_then. apply IH.
Qed.

Lemma exec_print_hex v (d : D) :
  exec (print_hex v) d 8 (uart_stores UART_ADDR (hex8 v))
       (feed UART_ADDR (map char_code (hex8 v)) d) tt.
Proof. apply (exec_print_hex_loop 8). Qed.

Lemma exec_main (d : D) :
  let val := wrap32 (fst (dev_load GPIO_ADDR (dev_store GPIO_ADDR 0xA5 d))) in
  exists d',
    exec main d 29
         (OStore GPIO_ADDR 0xA5 :: OBarrier :: OLoad GPIO_ADDR val ::
          uart_stores UART_ADDR (list_ascii_of_string "GPIO readback = ") ++
          uart_stores UART_ADDR (hex8 val) ++
          uart_stores UART_ADDR [LF] ++ [OEcall])
         d' 0.
Proof.
  intros val. eexists. unfold main.
  apply exec_store_then, exec_barrier_then, exec_load_then.
  fold val.
  eapply exec_seq;
    [ apply (exec_print_string (list_ascii_of_string "GPIO readback = ") []);
      repeat constructor; discriminate
    | | reflexivity | reflexivity ].
  eapply exec_seq; [ apply exec_print_hex | | reflexivity | reflexivity ].
  eapply exec_seq;
    [ apply (exec_print_string [LF] []); repeat constructor; discriminate
    | | reflexivity | reflexivity ].
  eapply exec_seq; [ apply exec_ecall | apply exec_ret | |]; reflexivity.
Qed.

End GpioTestPrinters.

(** * The delay loop of gpio_ctrl_test.c *)

Section Delay.

Context {D : Type} `{Device D}.

Import GpioCtrlTest.

Lemma delay_again i n (d : D) :
  i < 1000 ->
  run (S n) (ITree.iter delay_step i) d = run n (ITree.iter delay_step (i + 1)) d.
Proof.
  intros Hi.
  rewrite (run_observe _ _ _ _ (observe_iter delay_step i)).
  unfold delay_step at 1. apply Z.ltb_lt in Hi. rewrite Hi.
  now rewrite run_ret_bind.
Qed.

Lemma delay_leave i (d : D) :
  1000 <= i -> exec (ITree.iter delay_step i) d 0 [] d tt.
Proof.
  intros Hi n.
  rewrite (run_observe _ _ _ _ (observe_iter delay_step i)).
  unfold delay_step at 1. apply Z.ltb_ge in Hi. rewrite Hi.
  now rewrite run_ret_bind.
Qed.

Lemma exec_delay_from k i (d : D) :
  i = 1000 - Z.of_nat k ->
  exec (ITree.iter delay_step i) d k [] d tt.
Proof.
  revert i. induction k as [|k IH]; intros i Hi.
  - apply delay_leave. lia.
  - intros n. change (S (S k + n)) with (S (S (k + n))).
    rewrite delay_again by lia. apply IH. lia.
Qed.

Lemma exec_delay (d : D) : exec delay d 1000 [] d tt.
Proof. apply exec_delay_from. reflexivity. Qed.

(** While the counter is short of 1000 the loop is still turning, and it has
    done nothing to the outside. *)
Lemma delay_running_from j i (d : D) :
  Z.of_nat j <= 1000 - i ->
  run j (ITree.iter delay_step i) d = mkResult [] d OutOfFuel O.
Proof.
  revert i. induction j as [|j IH]; intros i Hj; [reflexivity|].
  rewrite delay_again by lia. apply IH. lia.
Qed.

Lemma delay_running j (d : D) :
  (j <= 1000)%nat -> run j delay d = mkResult [] d OutOfFuel O.
Proof. intros Hj. apply delay_running_from. lia. Qed.

End Delay.

(** * gpio_ctrl_test.c against printers that keep the contract of io.h *)

Section CtrlTest.

Context {D : Type} `{Device D}.

Variable io : IoH.Printers.
Variable uart : Z.

Hypothesis print_string_ok :
  forall cs rest (d : D),
    Forall (fun c => c <> zero) cs ->
    exec (IoH.print_string (cs ++ zero :: rest)) d (List.length cs)
         (uart_stores uart cs) (feed uart (map char_code cs) d) tt.

Hypothesis print_hex_ok :
  forall v (d : D),
    exec (IoH.print_hex v) d 8 (uart_stores uart (hex8 v))
         (feed uart (map char_code (hex8 v)) d) tt.

Import GpioCtrlTest.

Lemma exec_ctrl_main (d : D) :
  let val :=
    wrap32 (fst (dev_load GPIO_READ
                  (dev_store GPIO_DATA 0xA (dev_store GPIO_DIR 0x1F d)))) in
  exists d',
    exec main d 1025
         (OStore GPIO_DIR 0x1F :: OStore GPIO_DATA 0xA ::
          ([] ++ OLoad GPIO_READ val ::
           uart_stores uart (list_ascii_of_string "GPIO READ = ") ++
           uart_stores uart (hex8 val) ++
           uart_stores uart [LF] ++ [OEcall]))
         d' 0.
Proof.
  intros val. eexists. unfold main.
  apply exec_store_then, exec_store_then.
  eapply exec_seq; [ apply exec_delay | | reflexivity | reflexivity ].
  apply exec_load_then. fold val.
  eapply exec_seq;
    [ apply (print_string_ok (list_ascii_of_string "GPIO READ = ") []);
      repeat constructor; discriminate
    | | reflexivity | reflexivity ].
  eapply exec_seq; [ apply print_hex_ok | | reflexivity | reflexivity ].
  eapply exec_seq;
    [ apply (print_string_ok [LF] []); repeat constructor; discriminate
    | | reflexivity | reflexivity ].
  eapply exec_seq; [ apply exec_ecall | apply exec_ret | |]; reflexivity.
Qed.

End CtrlTest.

(** * The printers modelled after io.h *)

Section SpecPrinters.

Context {D : Type} `{Device D}.

Lemma exec_put_chars cs (d : D) :
  exec (IoH.put_chars cs) d (List.length cs) (uart_stores IoH.UART_DATA cs)
       (feed IoH.UART_DATA (map char_code cs) d) tt.
Proof.
  revert d. induction cs as [|c cs IH]; intros d.
  - apply exec_ret.
  - simpl IoH.put_chars. apply exec_store_then. apply IH.
Qed.

Lemma exec_spec_print_string cs rest (d : D) :
  Forall (fun c => c <> zero) cs ->
  exec (IoH.spec_print_string (cs ++ zero :: rest)) d (List.length cs)
       (uart_stores IoH.UART_DATA cs)
       (feed IoH.UART_DATA (map char_code cs) d) tt.
Proof.
  intros Hcs. unfold IoH.spec_print_string.
  rewrite until_nul_app by exact Hcs. apply exec_put_chars.
Qed.

Lemma exec_spec_print_hex v (d : D) :
  exec (IoH.spec_print_hex v) d 8 (uart_stores IoH.UART_DATA (hex8 v))
       (feed IoH.UART_DATA (map char_code (hex8 v)) d) tt.
Proof. apply (exec_put_chars (hex8 v)). Qed.

End SpecPrinters.

(** * The polling loop of timer_test2.c *)

Lemma land_one_testbit s : negb (Z.land s 0x1 =? 0) = Z.testbit s 0.
Proof.
  change 0x1 with (Z.ones 1). rewrite Z.land_ones by lia.
  rewrite Z.bit0_odd. change (2 ^ 1) with 2. rewrite Zmod_odd.
  now destruct (Z.odd s).
Qed.

Lemma w1c_one_bit0 old : Z.testbit (w1c old 1) 0 = false.
Proof. unfold w1c. rewrite Z.land_spec. apply andb_false_r. Qed.

Lemma w1c_one_frame old i : i <> 0 -> Z.testbit (w1c old 1) i = Z.testbit old i.
Proof.
  intros Hi. unfold w1c. rewrite Z.land_spec.
  destruct (Z.ltb_spec i 0) as [Hneg | Hpos].
  - now rewrite !Z.testbit_neg_r by lia.
  - rewrite Z.lnot_spec by lia.
    replace (Z.testbit 1 i) with false; [apply andb_true_r|].
    symmetry. apply (Z.bits_above_log2 1 i); simpl; lia.
Qed.

Section Polling.

Context {D : Type} `{Device D}.

Import TimerTest.

Lemma run_store_then {T} a v (k : unit -> itree mmioE T) n (d : D) :
  run (S n) (ITree.bind (store a v) k) d =
  emit (OStore a v) (run n (k tt) (dev_store a v d)).
Proof.
  rewrite run_S, observe_bind. cbn [observe _observe store ITree.trigger run_node].
  now rewrite run_ret_bind.
Qed.

(** One turn of [while (1)]: the status is loaded; if its bit 0 is set, 1 is
    stored to it; then the loop is back at its head, with nothing remembered
    from the turn. *)
Lemma run_poll_loop_S n (d : D) :
  run (S n) poll_loop d =
  let s := wrap32 (fst (dev_load TIMER_STAT d)) in
  let d1 := snd (dev_load TIMER_STAT d) in
  emit (OLoad TIMER_STAT s)
       (if Z.testbit s 0 then
          match n with
          | O => mkResult [] d1 OutOfFuel O
          | S m =>
            emit (OStore TIMER_STAT 1)
                 (run (pred m) poll_loop (dev_store TIMER_STAT 1 d1))
          end
        else run (pred n) poll_loop d1).
Proof.
  unfold poll_loop.
  rewrite (run_observe _ _ _ _ (observe_forever poll)).
  unfold poll at 1. rewrite run_S, !observe_bind.
  cbn [observe _observe load ITree.trigger run_node].
  destruct (dev_load TIMER_STAT d) as [v d1]. cbn [fst snd]. f_equal.
  rewrite (run_observe _ (ITree.bind
             (if negb (Z.land (wrap32 v) 1 =? 0)
              then store TIMER_STAT 1 else Ret tt)
             (fun _ => Tau (ITree.forever poll))))
    by (rewrite !observe_bind; reflexivity).
  rewrite land_one_testbit. destruct (Z.testbit (wrap32 v) 0).
  - destruct n as [|m]; [reflexivity|]. rewrite run_store_then. f_equal.
    destruct m; reflexivity.
  - rewrite run_ret_bind. destruct n; reflexivity.
Qed.

(** Every property of runs of the loop that holds when the fuel is out and is
    kept by a turn of the loop holds of all runs. *)
Lemma poll_loop_runs (P : nat -> D -> result D Z -> Prop) :
  (forall d, P O d (mkResult [] d OutOfFuel O)) ->
  (forall n d, let s := wrap32 (fst (dev_load TIMER_STAT d)) in
               let d1 := snd (dev_load TIMER_STAT d) in
               Z.testbit s 0 = false ->
               P (pred n) d1 (run (pred n) poll_loop d1) ->
               P (S n) d (emit (OLoad TIMER_STAT s) (run (pred n) poll_loop d1))) ->
  (forall d, let s := wrap32 (fst (dev_load TIMER_STAT d)) in
             let d1 := snd (dev_load TIMER_STAT d) in
             Z.testbit s 0 = true ->
             P 1%nat d (emit (OLoad TIMER_STAT s) (mkResult [] d1 OutOfFuel O))) ->
  (forall m d, let s := wrap32 (fst (dev_load TIMER_STAT d)) in
               let d2 := dev_store TIMER_STAT 1 (snd (dev_load TIMER_STAT d)) in
               Z.testbit s 0 = true ->
               P (pred m) d2 (run (pred m) poll_loop d2) ->
               P (S (S m)) d
                 (emit (OLoad TIMER_STAT s)
                       (emit (OStore TIMER_STAT 1) (run (pred m) poll_loop d2)))) ->
  forall fuel d, P fuel d (run fuel poll_loop d).
Proof.
  intros H0 Hidle Hcut Hclear fuel.
  induction fuel as [fuel IH] using (well_founded_induction lt_wf).
  intros d. destruct fuel as [|n]; [apply H0|].
  rewrite run_poll_loop_S. cbv zeta.
  destruct (Z.testbit _ 0) eqn:Hb.
  - destruct n as [|m]; [now apply Hcut|].
    apply Hclear; [exact Hb|]. apply IH. lia.
  - apply Hidle; [exact Hb|]. apply IH. lia.
Qed.

Lemma run_main_init n (d : D) :
  run (3 + n) main d =
  emit (OStore TIMER_CTRL 0)
    (emit (OStore TIMER_LOAD 12000000)
       (emit (OStore TIMER_CTRL 0x3)
          (run n poll_loop
               (dev_store TIMER_CTRL 0x3
                  (dev_store TIMER_LOAD 12000000
                     (dev_store TIMER_CTRL 0 d)))))).
Proof. unfold main. cbn [Nat.add]. now rewrite !run_store_then. Qed.

End Polling.

(** * gpio_ctrl_test.c up to the load, whatever the printers *)

Section CtrlAccesses.

Context {D : Type} `{Device D}.

Variable io : IoH.Printers.

Lemma run_load_then {T} a (k : Z -> itree mmioE T) n (d : D) :
  run (S n) (ITree.bind (load a) k) d =
  emit (OLoad a (wrap32 (fst (dev_load a d))))
       (run n (k (wrap32 (fst (dev_load a d)))) (snd (dev_load a d))).
Proof.
  rewrite run_S, observe_bind.
  cbn [observe _observe load ITree.trigger run_node].
  destruct (dev_load a d) as [v d1]. cbn [fst snd].
  now rewrite run_ret_bind.
Qed.

(** After the two stores, a thousand steps pass in the delay loop of [main]
    without any event. *)
Lemma run_ctrl_main_waiting k (d : D) :
  run (2 + Nat.min k 1000) (@GpioCtrlTest.main io) d =
  mkResult [OStore GpioCtrlTest.GPIO_DIR 0x1F; OStore GpioCtrlTest.GPIO_DATA 0xA]
           (dev_store GpioCtrlTest.GPIO_DATA 0xA
                      (dev_store GpioCtrlTest.GPIO_DIR 0x1F d))
           OutOfFuel O.
Proof.
  unfold GpioCtrlTest.main. cbn [Nat.add].
  rewrite !run_store_then, run_bind, delay_running by apply Nat.le_min_r.
  reflexivity.
Qed.

(** The step after those is the load of the read register. *)
Lemma run_ctrl_main_accesses (d : D) :
  run 1003 (@GpioCtrlTest.main io) d =
  let d2 := dev_store GpioCtrlTest.GPIO_DATA 0xA
                      (dev_store GpioCtrlTest.GPIO_DIR 0x1F d) in
  mkResult [OStore GpioCtrlTest.GPIO_DIR 0x1F; OStore GpioCtrlTest.GPIO_DATA 0xA;
            OLoad GpioCtrlTest.GPIO_READ
                  (wrap32 (fst (dev_load GpioCtrlTest.GPIO_READ d2)))]
           (snd (dev_load GpioCtrlTest.GPIO_READ d2)) OutOfFuel O.
Proof.
  unfold GpioCtrlTest.main.
  change 1003%nat with (S (S (S (1000 + 0)))).
  rewrite !run_store_then, run_bind, (exec_delay _ 0%nat).
  unfold and_then. cbn [out left_fuel final trace app].
  rewrite run_load_then. reflexivity.
Qed.

End CtrlAccesses.

(** * gpio_test.c: the printers *)

(** C1: for every 32-bit [v], [print_hex v] returns after exactly eight UART
    writes and nothing else; the eight characters are uppercase hexadecimal
    digits from [0-9A-F], the [k]-th one being the digit of nibble [7 - k]
    (most significant first, no prefix), so that reading them back as a
    hexadecimal numeral gives [v]; [0x00000000] prints as [00000000] and
    [0xFFFFFFFF] as [FFFFFFFF]. *)
Theorem print_hex_eight_digits (v : Z) (Hv : is_u32 v)
        (D : Type) (dev : Device D) (d : D) (n : nat) :
  let r := run (S (8 + n)) (GpioTest.print_hex v) d in
  let chars := uart_chars GpioTest.UART_ADDR (trace r) in
  out r = Done tt /\
  trace r = uart_stores GpioTest.UART_ADDR (hex8 v) /\
  chars = map char_code (hex8 v) /\
  List.length chars = 8%nat /\
  Forall (fun c => In c (list_ascii_of_string "0123456789ABCDEF")) (hex8 v) /\
  (forall k, (k < 8)%nat ->
             nth k (hex8 v) zero = hex_digit (nibble v (7 - Z.of_nat k))) /\
  hex_value (hex8 v) = Some v /\
  uart_chars GpioTest.UART_ADDR
             (trace (run (S (8 + n)) (GpioTest.print_hex 0x00000000) d))
  = codes "00000000" /\
  uart_chars GpioTest.UART_ADDR
             (trace (run (S (8 + n)) (GpioTest.print_hex 0xFFFFFFFF) d))
  = codes "FFFFFFFF".
Proof.
  intros r chars. subst chars r.
  rewrite !(exec_print_hex _ d n). cbn [trace out].
  rewrite !uart_chars_stores.
  repeat split.
  - unfold hex8. cbn [map].
    repeat (apply Forall_cons; [apply hex_digit_in, nibble_range|]).
    apply Forall_nil.
  - intros k Hk. do 8 (destruct k as [|k]; [reflexivity|]). lia.
  - now apply hex_value_hex8.
Qed.

Lemma print_hex_eight_digits_witness :
  is_u32 0x1234ABCD /\
  uart_chars GpioTest.UART_ADDR
             (trace (run 9 (GpioTest.print_hex 0x1234ABCD) (Stuck 0)))
  = codes "1234ABCD".
Proof.
  assert (Hv : is_u32 0x1234ABCD) by (unfold is_u32; lia).
  split; [exact Hv|].
  destruct (print_hex_eight_digits 0x1234ABCD Hv stuck stuck_dev (Stuck 0) 0)
    as (_ & _ & Hc & _).
  exact Hc.
Defined.

(** C2: for every character sequence [cs] without a zero byte, stored in
    memory with its terminator (and whatever follows it), [print_string]
    returns after writing the characters of [cs] to the UART in order, one
    store per character; neither the terminator nor anything behind it is
    written, and for the empty sequence nothing is written at all. *)
Theorem print_string_in_order (cs rest : list ascii)
        (Hcs : Forall (fun c => c <> zero) cs)
        (D : Type) (dev : Device D) (d : D) (n : nat) :
  let r := run (S (List.length cs + n))
               (GpioTest.print_string (cs ++ zero :: rest)) d in
  out r = Done tt /\
  trace r = uart_stores GpioTest.UART_ADDR cs /\
  uart_chars GpioTest.UART_ADDR (trace r) = map char_code cs /\
  List.length (trace r) = List.length cs /\
  trace (run (S n) (GpioTest.print_string (zero :: rest)) d) = [].
Proof.
  intros r. subst r.
  rewrite (exec_print_string cs rest d Hcs n). cbn [trace out].
  rewrite uart_chars_stores. unfold uart_stores. rewrite length_map.
  repeat split.
Qed.

Lemma print_string_in_order_witness :
  Forall (fun c => c <> zero) (list_ascii_of_string "ok") /\
  trace (run 3 (GpioTest.print_string (cstr "ok")) (Stuck 0))
  = [OStore GpioTest.UART_ADDR 111; OStore GpioTest.UART_ADDR 107].
Proof.
  assert (Hcs : Forall (fun c => c <> zero) (list_ascii_of_string "ok"))
    by (repeat constructor; discriminate).
  split; [exact Hcs|].
  destruct (print_string_in_order (list_ascii_of_string "ok") [] Hcs
                                  stuck stuck_dev (Stuck 0) 0)
    as (_ & Ht & _).
  exact Ht.
Defined.

(** C9: for every 32-bit [v] and every loop index [i] from 0 to 7, the index
    [(v >> (i * 4)) & 0xF] lies between 0 and 15, the read of [hex] at that
    index is inside the array and yields one of its sixteen digits, and no run
    of [print_hex v] ever reads out of bounds. *)
Theorem hex_index_in_bounds (v i : Z) (Hv : is_u32 v) (Hi : 0 <= i <= 7) :
  0 <= GpioTest.hex_index v i <= 15 /\
  (exists c, array_get GpioTest.hex (GpioTest.hex_index v i) = Some c /\
             In c (list_ascii_of_string "0123456789ABCDEF")) /\
  forall (D : Type) (dev : Device D) (d : D) (fuel : nat),
    out (run fuel (GpioTest.print_hex v) d) <> Fault.
Proof.
  rewrite hex_index_nibble by lia.
  pose proof (nibble_range v i) as Hn.
  split; [lia|]. split.
  - exists (hex_digit (nibble v i)).
    split; [now apply hex_lookup | now apply hex_digit_in].
  - intros D dev d fuel. eapply exec_no_fault, exec_print_hex.
Qed.

Lemma hex_index_in_bounds_witness :
  is_u32 0xFFFFFFFF /\ 0 <= 7 <= 7 /\ GpioTest.hex_index 0xFFFFFFFF 7 <= 15.
Proof.
  assert (Hv : is_u32 0xFFFFFFFF) by (unfold is_u32; lia).
  assert (Hi : 0 <= 7 <= 7) by lia.
  split; [exact Hv|]. split; [exact Hi|].
  destruct (hex_index_in_bounds 0xFFFFFFFF 7 Hv Hi) as ((_ & Hle) & _).
  exact Hle.
Defined.

(** * gpio_test.c: the readback test *)

(** C3: the readback test stores [0xA5] to the GPIO register, passes the
    barrier, loads that register once, sends ["GPIO readback = "], the eight
    hex digits of the value loaded and a line feed to the UART, executes
    [ecall], and returns; on the idealized read-back peripheral the UART
    receives ["GPIO readback = 000000A5"] and the line feed. *)
Theorem readback_test_sequence (D : Type) (dev : Device D) (d : D) (n : nat) :
  let val :=
    wrap32 (fst (dev_load GpioTest.GPIO_ADDR
                          (dev_store GpioTest.GPIO_ADDR 0xA5 d))) in
  let r := run (S (29 + n)) GpioTest.main d in
  out r = Done 0 /\
  trace r =
    [OStore GpioTest.GPIO_ADDR 0xA5; OBarrier; OLoad GpioTest.GPIO_ADDR val] ++
    uart_stores GpioTest.UART_ADDR
      (list_ascii_of_string "GPIO readback = " ++ hex8 val ++ [LF]) ++
    [OEcall] /\
  uart_chars GpioTest.UART_ADDR (trace r) =
    codes "GPIO readback = " ++ map char_code (hex8 val) ++ [char_code LF] /\
  forall rf : regfile,
    uart_chars GpioTest.UART_ADDR (trace (run (S (29 + n)) GpioTest.main rf)) =
    codes "GPIO readback = 000000A5" ++ [char_code LF].
Proof.
  intros val r.
  assert (Hall : forall (D' : Type) (dev' : Device D') (d0 : D'),
    let v := wrap32 (fst (dev_load GpioTest.GPIO_ADDR
                                   (dev_store GpioTest.GPIO_ADDR 0xA5 d0))) in
    let r0 := run (S (29 + n)) GpioTest.main d0 in
    out r0 = Done 0 /\
    trace r0 =
      [OStore GpioTest.GPIO_ADDR 0xA5; OBarrier; OLoad GpioTest.GPIO_ADDR v] ++
      uart_stores GpioTest.UART_ADDR
        (list_ascii_of_string "GPIO readback = " ++ hex8 v ++ [LF]) ++
      [OEcall] /\
    uart_chars GpioTest.UART_ADDR (trace r0) =
      codes "GPIO readback = " ++ map char_code (hex8 v) ++ [char_code LF]).
  { intros D' dev' d0 v r0. subst r0.
    destruct (exec_main d0) as [d' He]. rewrite (He n). cbn [out trace].
    fold v. rewrite !uart_stores_app.
    split; [reflexivity|]. split; [reflexivity|].
    change (uart_chars GpioTest.UART_ADDR
              (OStore GpioTest.GPIO_ADDR 165 :: OBarrier
               :: OLoad GpioTest.GPIO_ADDR v :: ?tr))
      with (uart_chars GpioTest.UART_ADDR tr).
    rewrite !uart_chars_app, !uart_chars_stores. reflexivity. }
  destruct (Hall D dev d) as (Ho & Ht & Hu).
  split; [exact Ho|]. split; [exact Ht|]. split; [exact Hu|].
  intros rf. destruct (Hall regfile readback_dev rf) as (_ & _ & Hu').
  exact Hu'.
Qed.

(** * gpio_ctrl_test.c: the direction/write/read test *)

(** C4: linked against the printers of [io.h], the direction/write/read test
    stores [0x1F] to the direction register and [0xA] to the data register,
    spins through the delay loop, loads the read register once, sends
    ["GPIO READ = "], the eight hex digits of the value loaded and a line feed
    to the UART, executes [ecall] and returns.  The delay loop takes a
    thousand silent turns (it is still running with 1000 units of fuel, done
    with one more) and neither performs an event nor touches the device; in
    [main] it stands between the store to the data register and the load:
    with any fuel from 2 to 1002 the run has made the two stores and nothing
    else, the load is the event of step 1003, and with 1025 units of fuel the
    run is not yet complete.  The value loaded is never tested: whatever value
    [x] the hardware answers, the run completes and prints the digits of that
    value. *)
Theorem ctrl_test_sequence (D : Type) (dev : Device D) (d : D) (n : nat) :
  let d2 :=
    dev_store GpioCtrlTest.GPIO_DATA 0xA
              (dev_store GpioCtrlTest.GPIO_DIR 0x1F d) in
  let val := wrap32 (fst (dev_load GpioCtrlTest.GPIO_READ d2)) in
  let r := run (S (1025 + n)) (@GpioCtrlTest.main IoH.spec_printers) d in
  out r = Done 0 /\
  trace r =
    [OStore GpioCtrlTest.GPIO_DIR 0x1F; OStore GpioCtrlTest.GPIO_DATA 0xA;
     OLoad GpioCtrlTest.GPIO_READ val] ++
    uart_stores IoH.UART_DATA
      (list_ascii_of_string "GPIO READ = " ++ hex8 val ++ [LF]) ++
    [OEcall] /\
  uart_chars IoH.UART_DATA (trace r) =
    codes "GPIO READ = " ++ map char_code (hex8 val) ++ [char_code LF] /\
  run (S (1000 + n)) GpioCtrlTest.delay d2 = mkResult [] d2 (Done tt) (S n) /\
  out (run 1000 GpioCtrlTest.delay d2) = OutOfFuel /\
  (forall k,
      run (2 + Nat.min k 1000) (@GpioCtrlTest.main IoH.spec_printers) d =
      mkResult [OStore GpioCtrlTest.GPIO_DIR 0x1F;
                OStore GpioCtrlTest.GPIO_DATA 0xA] d2 OutOfFuel O) /\
  run 1003 (@GpioCtrlTest.main IoH.spec_printers) d =
    mkResult [OStore GpioCtrlTest.GPIO_DIR 0x1F;
              OStore GpioCtrlTest.GPIO_DATA 0xA;
              OLoad GpioCtrlTest.GPIO_READ val]
             (snd (dev_load GpioCtrlTest.GPIO_READ d2)) OutOfFuel O /\
  out (run 1025 (@GpioCtrlTest.main IoH.spec_printers) d) = OutOfFuel /\
  forall x : Z,
    let rx := run (S (1025 + n)) (@GpioCtrlTest.main IoH.spec_printers)
                  (Stuck x) in
    out rx = Done 0 /\
    uart_chars IoH.UART_DATA (trace rx) =
      codes "GPIO READ = " ++ map char_code (hex8 (wrap32 x)) ++ [char_code LF].
Proof.
  intros d2 val r.
  assert (Hall : forall (D' : Type) (dev' : Device D') (d0 : D'),
    let v := wrap32 (fst (dev_load GpioCtrlTest.GPIO_READ
                   (dev_store GpioCtrlTest.GPIO_DATA 0xA
                              (dev_store GpioCtrlTest.GPIO_DIR 0x1F d0)))) in
    let r0 := run (S (1025 + n)) (@GpioCtrlTest.main IoH.spec_printers) d0 in
    out r0 = Done 0 /\
    trace r0 =
      [OStore GpioCtrlTest.GPIO_DIR 0x1F; OStore GpioCtrlTest.GPIO_DATA 0xA;
       OLoad GpioCtrlTest.GPIO_READ v] ++
      uart_stores IoH.UART_DATA
        (list_ascii_of_string "GPIO READ = " ++ hex8 v ++ [LF]) ++
      [OEcall] /\
    uart_chars IoH.UART_DATA (trace r0) =
      codes "GPIO READ = " ++ map char_code (hex8 v) ++ [char_code LF]).
  { intros D' dev' d0 v r0. subst r0.
    destruct (exec_ctrl_main IoH.spec_printers IoH.UART_DATA
                (fun cs rest d1 => exec_spec_print_string cs rest d1)
                (fun x d1 => exec_spec_print_hex x d1) d0) as [d' He].
    rewrite (He n). cbn [out trace app].
    fold v. rewrite !uart_stores_app.
    split; [reflexivity|]. split; [reflexivity|].
    change (uart_chars IoH.UART_DATA
              (OStore GpioCtrlTest.GPIO_DIR 31 :: OStore GpioCtrlTest.GPIO_DATA 10
               :: OLoad GpioCtrlTest.GPIO_READ v :: ?tr))
      with (uart_chars IoH.UART_DATA tr).
    rewrite !uart_chars_app, !uart_chars_stores. reflexivity. }
  destruct (Hall D dev d) as (Ho & Ht & Hu).
  split; [exact Ho|]. split; [exact Ht|]. split; [exact Hu|].
  split; [apply exec_delay|].
  split; [apply (exec_needs_fuel _ _ _ _ _ _ _ (exec_delay d2)); lia|].
  split; [intros k; apply run_ctrl_main_waiting|].
  split; [apply run_ctrl_main_accesses|].
  split.
  { destruct (exec_ctrl_main IoH.spec_printers IoH.UART_DATA
                (fun cs rest d1 => exec_spec_print_string cs rest d1)
                (fun x d1 => exec_spec_print_hex x d1) d) as [d' He].
    apply (exec_needs_fuel _ _ _ _ _ _ _ He). lia. }
  intros x rx. destruct (Hall stuck stuck_dev (Stuck x)) as (Ho' & _ & Hu').
  split; [exact Ho' | exact Hu'].
Qed.

(** The same sequence is observed when the test is linked against the
    printers that gpio_test.c defines for itself. *)
Lemma ctrl_test_sequence_local (D : Type) (dev : Device D) (d : D) (n : nat) :
  let val :=
    wrap32 (fst (dev_load GpioCtrlTest.GPIO_READ
                  (dev_store GpioCtrlTest.GPIO_DATA 0xA
                             (dev_store GpioCtrlTest.GPIO_DIR 0x1F d)))) in
  let r := run (S (1025 + n)) (@GpioCtrlTest.main gpio_test_printers) d in
  out r = Done 0 /\
  trace r =
    [OStore GpioCtrlTest.GPIO_DIR 0x1F; OStore GpioCtrlTest.GPIO_DATA 0xA;
     OLoad GpioCtrlTest.GPIO_READ val] ++
    uart_stores GpioTest.UART_ADDR
      (list_ascii_of_string "GPIO READ = " ++ hex8 val ++ [LF]) ++
    [OEcall].
Proof.
  intros val r. subst r.
  destruct (exec_ctrl_main gpio_test_printers GpioTest.UART_ADDR
              (fun cs rest d1 => exec_print_string cs rest d1)
              (fun x d1 => exec_print_hex x d1) d) as [d' He].
  rewrite (He n). cbn [out trace app]. fold val.
  now rewrite !uart_stores_app.
Qed.

(** * timer_test2.c *)

(** Runs of [main] that stop before the loop is entered. *)
Lemma run_main_cases {D} `{Device D} fuel (d : D) :
  (fuel = 0%nat /\ run fuel TimerTest.main d = mkResult [] d OutOfFuel O) \/
  (fuel = 1%nat /\
   run fuel TimerTest.main d =
   emit (OStore TimerTest.TIMER_CTRL 0)
        (mkResult [] (dev_store TimerTest.TIMER_CTRL 0 d) OutOfFuel O)) \/
  (fuel = 2%nat /\
   run fuel TimerTest.main d =
   emit (OStore TimerTest.TIMER_CTRL 0)
     (emit (OStore TimerTest.TIMER_LOAD 12000000)
        (mkResult [] (dev_store TimerTest.TIMER_LOAD 12000000
                        (dev_store TimerTest.TIMER_CTRL 0 d)) OutOfFuel O))) \/
  (exists n, fuel = (3 + n)%nat).
Proof.
  destruct fuel as [|[|[|n]]].
  - left. now split.
  - right; left. split; [reflexivity|]. unfold TimerTest.main.
    now rewrite run_store_then.
  - right; right; left. split; [reflexivity|]. unfold TimerTest.main.
    now rewrite !run_store_then.
  - right; right; right. now exists n.
Qed.

(** C5: before the loop, the timer test makes exactly three register writes:
    0 to the control register (timer stopped), 12000000 to the load register
    and 0x3 to the control register, a value with bit 0 (enable) and bit 1
    (periodic mode) set; everything that follows is the polling of the status
    register. *)
Theorem timer_init_three_writes (D : Type) (dev : Device D) (d : D) (n : nat) :
  let d3 :=
    dev_store TimerTest.TIMER_CTRL 0x3
      (dev_store TimerTest.TIMER_LOAD 12000000
         (dev_store TimerTest.TIMER_CTRL 0 d)) in
  trace (run (3 + n) TimerTest.main d) =
    [OStore TimerTest.TIMER_CTRL 0; OStore TimerTest.TIMER_LOAD 12000000;
     OStore TimerTest.TIMER_CTRL 0x3] ++
    trace (run n TimerTest.poll_loop d3) /\
  final (run (3 + n) TimerTest.main d) = final (run n TimerTest.poll_loop d3) /\
  polling (trace (run n TimerTest.poll_loop d3)) = true /\
  Z.testbit 0 0 = false /\
  Z.testbit 0x3 0 = true /\ Z.testbit 0x3 1 = true.
Proof.
  intros d3. rewrite run_main_init. fold d3.
  split; [reflexivity|]. split; [reflexivity|].
  split; [|repeat split].
  apply (poll_loop_runs (fun _ _ r => polling (trace r) = true)).
  - reflexivity.
  - intros k d0 s d1 Hb IH. rewrite trace_emit. cbn [polling].
    rewrite Z.eqb_refl, Hb. exact IH.
  - intros d0 s d1 Hb. rewrite trace_emit. cbn [polling trace].
    now rewrite Z.eqb_refl, Hb.
  - intros m d0 s d2 Hb IH. rewrite !trace_emit. cbn [polling].
    rewrite Z.eqb_refl, Hb. exact IH.
Qed.

(** C6: the timer test never comes to an end: with whatever fuel, [main] and
    the loop it enters are still running, never done and never at fault.  The
    trace of the loop is a sequence of loads of the status register, each one
    followed by a store of 1 to it exactly when bit 0 of the value read is
    set; it contains no other event, in particular no store to the UART, and
    it grows without bound, by at least one event for every three units of
    fuel. *)
Theorem poll_loop_never_ends (D : Type) (dev : Device D) (d : D) (fuel : nat) :
  out (run fuel TimerTest.main d) = OutOfFuel /\
  let r := run fuel TimerTest.poll_loop d in
  out r = OutOfFuel /\
  polling (trace r) = true /\
  Forall status_access (trace r) /\
  uart_chars GpioTest.UART_ADDR (trace r) = [] /\
  (fuel <= 3 * List.length (trace r))%nat.
Proof.
  assert (Hloop : forall fuel (d : D),
    let r := run fuel TimerTest.poll_loop d in
    out r = OutOfFuel /\
    polling (trace r) = true /\
    Forall status_access (trace r) /\
    uart_chars GpioTest.UART_ADDR (trace r) = [] /\
    (fuel <= 3 * List.length (trace r))%nat).
  { apply (poll_loop_runs (fun fuel _ r =>
      out r = OutOfFuel /\
      polling (trace r) = true /\
      Forall status_access (trace r) /\
      uart_chars GpioTest.UART_ADDR (trace r) = [] /\
      (fuel <= 3 * List.length (trace r))%nat)).
    - intros d0. cbn. repeat split; auto.
    - intros k d0 s d1 Hb (Ho & Hp & Hs & Hu & Hl).
      rewrite out_emit, trace_emit. cbn [polling List.length].
      rewrite Z.eqb_refl, Hb.
      split; [exact Ho|]. split; [exact Hp|].
      split; [constructor; [reflexivity | exact Hs]|].
      split; [exact Hu | lia].
    - intros d0 s d1 Hb. rewrite out_emit, trace_emit.
      cbn [polling trace out List.length]. rewrite Z.eqb_refl, Hb.
      split; [reflexivity|]. split; [reflexivity|].
      split; [constructor; [reflexivity | constructor]|].
      split; [reflexivity | lia].
    - intros m d0 s d2 Hb (Ho & Hp & Hs & Hu & Hl).
      rewrite !out_emit, !trace_emit. cbn [polling List.length].
      rewrite Z.eqb_refl, Hb.
      split; [exact Ho|]. split; [exact Hp|].
      split; [repeat (constructor; [now cbn|]); exact Hs|].
      split; [exact Hu | lia]. }
  split; [|apply Hloop].
  destruct (run_main_cases fuel d) as [(_ & ->) | [(_ & ->) | [(_ & ->) | (k & ->)]]];
    try reflexivity.
  rewrite run_main_init, !out_emit. apply Hloop.
Qed.

(** C7: every store the timer test makes to the status register writes the
    value 1.  Under write-1-to-clear such a write clears bit 0 and leaves
    every other bit of the register as it was; accordingly, on a timer whose
    status register is write-1-to-clear, no run of the test changes any status
    bit other than bit 0. *)
Theorem status_writes_clear_bit0 (D : Type) (dev : Device D) (d : D)
        (fuel : nat) :
  Forall status_store_is_one (trace (run fuel TimerTest.main d)) /\
  (forall old : Z,
      Z.testbit (w1c old 1) 0 = false /\
      forall i, i <> 0 -> Z.testbit (w1c old 1) i = Z.testbit old i) /\
  forall (hw : timer_hw) (i : Z),
    i <> 0 ->
    Z.testbit (status (final (run fuel TimerTest.main hw))) i =
    Z.testbit (status hw) i.
Proof.
  split; [|split].
  - assert (Hloop : forall k (d0 : D),
              Forall status_store_is_one (trace (run k TimerTest.poll_loop d0))).
    { apply (poll_loop_runs (fun _ _ r => Forall status_store_is_one (trace r))).
      - constructor.
      - intros k d0 s d1 _ IH. rewrite trace_emit. now constructor.
      - intros d0 s d1 _. rewrite trace_emit. now repeat constructor.
      - intros m d0 s d2 _ IH. rewrite !trace_emit.
        constructor; [exact I|]. constructor; [now intros _ | exact IH]. }
    destruct (run_main_cases fuel d)
      as [(_ & ->) | [(_ & ->) | [(_ & ->) | (k & ->)]]].
    + constructor.
    + rewrite trace_emit. repeat constructor. cbn. discriminate.
    + rewrite !trace_emit. repeat constructor; cbn; discriminate.
    + rewrite run_main_init, !trace_emit.
      repeat (constructor; [cbn; discriminate|]). apply Hloop.
  - intros old. split; [apply w1c_one_bit0 | apply w1c_one_frame].
  - intros hw i Hi.
    assert (Hloop : forall k (h0 : timer_hw),
              Z.testbit (status (final (run k TimerTest.poll_loop h0))) i =
              Z.testbit (status h0) i).
    { apply (poll_loop_runs (fun _ h0 r =>
               Z.testbit (status (final r)) i = Z.testbit (status h0) i)).
      - reflexivity.
      - intros k h0 s d1 _ IH. rewrite final_emit. exact IH.
      - reflexivity.
      - intros m h0 s d2 _ IH. rewrite !final_emit, IH.
        subst d2. cbn. now apply w1c_one_frame. }
    destruct (run_main_cases fuel hw)
      as [(_ & ->) | [(_ & ->) | [(_ & ->) | (k & ->)]]]; try reflexivity.
    rewrite run_main_init, !final_emit. apply Hloop.
Qed.

Lemma status_writes_clear_bit0_witness :
  4 <> 0 /\
  Z.testbit (status (final (run 6 TimerTest.main (TimerHw 0xF5)))) 4 =
  Z.testbit 0xF5 4.
Proof.
  assert (Hi : 4 <> 0) by lia.
  split; [exact Hi|].
  destruct (status_writes_clear_bit0 timer_hw w1c_timer (TimerHw 0) 6)
    as (_ & _ & Hf).
  exact (Hf (TimerHw 0xF5) 4 Hi).
Defined.

(** * The register map *)

(** C8: the register addresses of the three tests are those of the
    [0x00400000] region: the UART data register at [+0x04], the GPIO register
    of the readback test at [+0x20], the GPIO block of the direction test at
    [+0x20] with data, direction and read registers at [+0x00], [+0x04] and
    [+0x08], the timer block at [+0x40] with control, load and status
    registers at [+0x00], [+0x04] and [+0x0C]; and no run of a test loads from
    or stores to any other address. *)
Theorem register_map (D : Type) (dev : Device D) (d : D) (fuel : nat) :
  let base := 0x00400000 in
  GpioTest.IO_BASE = base /\
  GpioTest.UART_ADDR = base + 0x04 /\
  GpioTest.GPIO_ADDR = base + 0x20 /\
  IoH.UART_DATA = base + 0x04 /\
  GpioCtrlTest.GPIO_BASE = base + 0x20 /\
  GpioCtrlTest.GPIO_DATA = GpioCtrlTest.GPIO_BASE + 0x00 /\
  GpioCtrlTest.GPIO_DIR = GpioCtrlTest.GPIO_BASE + 0x04 /\
  GpioCtrlTest.GPIO_READ = GpioCtrlTest.GPIO_BASE + 0x08 /\
  TimerTest.TIMER_BASE = base + 0x40 /\
  TimerTest.TIMER_CTRL = TimerTest.TIMER_BASE + 0x00 /\
  TimerTest.TIMER_LOAD = TimerTest.TIMER_BASE + 0x04 /\
  TimerTest.TIMER_STAT = TimerTest.TIMER_BASE + 0x0C /\
  Forall (touches [base + 0x04; base + 0x20])
         (trace (run fuel GpioTest.main d)) /\
  Forall (touches [base + 0x04; base + 0x20 + 0x00; base + 0x20 + 0x04;
                   base + 0x20 + 0x08])
         (trace (run fuel (@GpioCtrlTest.main IoH.spec_printers) d)) /\
  Forall (touches [base + 0x40 + 0x00; base + 0x40 + 0x04; base + 0x40 + 0x0C])
         (trace (run fuel TimerTest.main d)).
Proof.
  intros base. do 12 (split; [reflexivity|]). split; [|split].
  - destruct (exec_main d) as [d' He].
    apply (exec_all_events _ _ _ _ _ _ _ _ He).
    do 3 (apply Forall_cons; [cbn; tauto|]).
    do 3 (apply Forall_app; split; [apply touches_uart_stores; cbn; tauto|]).
    now repeat constructor.
  - destruct (exec_ctrl_main IoH.spec_printers IoH.UART_DATA
                (fun cs rest d1 => exec_spec_print_string cs rest d1)
                (fun x d1 => exec_spec_print_hex x d1) d) as [d' He].
    apply (exec_all_events _ _ _ _ _ _ _ _ He).
    do 2 (apply Forall_cons; [cbn; tauto|]). cbn [app].
    apply Forall_cons; [cbn; tauto|].
    do 3 (apply Forall_app; split; [apply touches_uart_stores; cbn; tauto|]).
    now repeat constructor.
  - set (regs := [base + 0x40 + 0x00; base + 0x40 + 0x04; base + 0x40 + 0x0C]).
    assert (Hloop : forall k (d0 : D),
              Forall (touches regs) (trace (run k TimerTest.poll_loop d0))).
    { apply (poll_loop_runs (fun _ _ r => Forall (touches regs) (trace r))).
      - constructor.
      - intros k d0 s d1 _ IH. rewrite trace_emit.
        constructor; [cbn; tauto | exact IH].
      - intros d0 s d1 _. rewrite trace_emit.
        constructor; [cbn; tauto | constructor].
      - intros m d0 s d2 _ IH. rewrite !trace_emit.
        repeat (constructor; [cbn; tauto|]). exact IH. }
    destruct (run_main_cases fuel d)
      as [(_ & ->) | [(_ & ->) | [(_ & ->) | (k & ->)]]].
    + constructor.
    + rewrite trace_emit. constructor; [cbn; tauto | constructor].
    + rewrite !trace_emit. repeat (constructor; [cbn; tauto|]). constructor.
    + rewrite run_main_init, !trace_emit.
      repeat (constructor; [cbn; tauto|]). apply Hloop.
Qed.

(** * The UART output of the GPIO tests *)

Lemma readback_test_report (D : Type) (dev : Device D) (d : D) fuel x :
  out (run fuel GpioTest.main d) = Done x ->
  exists val,
    reads_of GpioTest.GPIO_ADDR (trace (run fuel GpioTest.main d)) = [val] /\
    uart_chars GpioTest.UART_ADDR (trace (run fuel GpioTest.main d)) =
    report "GPIO readback = " val.
Proof.
  intros Hd. destruct (exec_main d) as [d' He].
  destruct (exec_done _ _ _ _ _ _ _ _ He Hd) as (-> & _ & _).
  eexists. split.
  - change (reads_of GpioTest.GPIO_ADDR
              (OStore GpioTest.GPIO_ADDR 165 :: OBarrier
               :: OLoad GpioTest.GPIO_ADDR ?v :: ?tr))
      with (v :: reads_of GpioTest.GPIO_ADDR tr).
    rewrite !reads_of_app, !reads_of_uart_stores. reflexivity.
  - change (uart_chars GpioTest.UART_ADDR
              (OStore GpioTest.GPIO_ADDR 165 :: OBarrier
               :: OLoad GpioTest.GPIO_ADDR ?v :: ?tr))
      with (uart_chars GpioTest.UART_ADDR tr).
    rewrite !uart_chars_app, !uart_chars_stores. reflexivity.
Qed.

Lemma ctrl_test_report (D : Type) (dev : Device D) (d : D) fuel x :
  out (run fuel (@GpioCtrlTest.main IoH.spec_printers) d) = Done x ->
  exists val,
    reads_of GpioCtrlTest.GPIO_READ
             (trace (run fuel (@GpioCtrlTest.main IoH.spec_printers) d)) = [val] /\
    uart_chars IoH.UART_DATA
               (trace (run fuel (@GpioCtrlTest.main IoH.spec_printers) d)) =
    report "GPIO READ = " val.
Proof.
  intros Hd.
  destruct (exec_ctrl_main IoH.spec_printers IoH.UART_DATA
              (fun cs rest d1 => exec_spec_print_string cs rest d1)
              (fun v d1 => exec_spec_print_hex v d1) d) as [d' He].
  destruct (exec_done _ _ _ _ _ _ _ _ He Hd) as (-> & _ & _).
  cbn [app]. eexists. split.
  - change (reads_of GpioCtrlTest.GPIO_READ
              (OStore GpioCtrlTest.GPIO_DIR 31 :: OStore GpioCtrlTest.GPIO_DATA 10
               :: OLoad GpioCtrlTest.GPIO_READ ?v :: ?tr))
      with (v :: reads_of GpioCtrlTest.GPIO_READ tr).
    rewrite !reads_of_app, !reads_of_uart_stores. reflexivity.
  - change (uart_chars IoH.UART_DATA
              (OStore GpioCtrlTest.GPIO_DIR 31 :: OStore GpioCtrlTest.GPIO_DATA 10
               :: OLoad GpioCtrlTest.GPIO_READ ?v :: ?tr))
      with (uart_chars IoH.UART_DATA tr).
    rewrite !uart_chars_app, !uart_chars_stores. reflexivity.
Qed.

(** C10: the characters a GPIO test has sent to the UART when it returns are
    a function of the one value its GPIO load returned, the label followed by
    the eight hex digits of that value and a line feed.  Hence two complete
    runs of the same test, on any two devices in any two states, that read the
    same GPIO value send the same characters. *)
Theorem gpio_output_determined
        (D1 D2 : Type) (dev1 : Device D1) (dev2 : Device D2)
        (d1 : D1) (d2 : D2) (f1 f2 : nat) :
  let a1 := run f1 GpioTest.main d1 in
  let a2 := run f2 GpioTest.main d2 in
  let b1 := run f1 (@GpioCtrlTest.main IoH.spec_printers) d1 in
  let b2 := run f2 (@GpioCtrlTest.main IoH.spec_printers) d2 in
  (forall x1 x2,
      out a1 = Done x1 -> out a2 = Done x2 ->
      reads_of GpioTest.GPIO_ADDR (trace a1) =
      reads_of GpioTest.GPIO_ADDR (trace a2) ->
      uart_chars GpioTest.UART_ADDR (trace a1) =
      uart_chars GpioTest.UART_ADDR (trace a2)) /\
  (forall x1 x2,
      out b1 = Done x1 -> out b2 = Done x2 ->
      reads_of GpioCtrlTest.GPIO_READ (trace b1) =
      reads_of GpioCtrlTest.GPIO_READ (trace b2) ->
      uart_chars IoH.UART_DATA (trace b1) =
      uart_chars IoH.UART_DATA (trace b2)) /\
  (forall x1,
      out a1 = Done x1 ->
      exists val,
        reads_of GpioTest.GPIO_ADDR (trace a1) = [val] /\
        uart_chars GpioTest.UART_ADDR (trace a1) =
        report "GPIO readback = " val) /\
  (forall x1,
      out b1 = Done x1 ->
      exists val,
        reads_of GpioCtrlTest.GPIO_READ (trace b1) = [val] /\
        uart_chars IoH.UART_DATA (trace b1) = report "GPIO READ = " val).
Proof.
  intros a1 a2 b1 b2. subst a1 a2 b1 b2.
  split; [|split; [|split]].
  - intros x1 x2 H1 H2 Hr.
    destruct (readback_test_report _ _ _ _ _ H1) as (v1 & Hv1 & ->).
    destruct (readback_test_report _ _ _ _ _ H2) as (v2 & Hv2 & ->).
    congruence.
  - intros x1 x2 H1 H2 Hr.
    destruct (ctrl_test_report _ _ _ _ _ H1) as (v1 & Hv1 & ->).
    destruct (ctrl_test_report _ _ _ _ _ H2) as (v2 & Hv2 & ->).
    congruence.
  - intros x1. apply readback_test_report.
  - intros x1. apply ctrl_test_report.
Qed.

Lemma gpio_output_determined_witness :
  out (run 30 GpioTest.main (fun _ : Z => 0)) = Done 0 /\
  out (run 40 GpioTest.main (Stuck 0xA5)) = Done 0 /\
  reads_of GpioTest.GPIO_ADDR (trace (run 30 GpioTest.main (fun _ : Z => 0))) =
  reads_of GpioTest.GPIO_ADDR (trace (run 40 GpioTest.main (Stuck 0xA5))) /\
  uart_chars GpioTest.UART_ADDR (trace (run 30 GpioTest.main (fun _ : Z => 0))) =
  uart_chars GpioTest.UART_ADDR (trace (run 40 GpioTest.main (Stuck 0xA5))).
Proof.
  assert (H1 : out (run 30 GpioTest.main (fun _ : Z => 0)) = Done 0)
    by reflexivity.
  assert (H2 : out (run 40 GpioTest.main (Stuck 0xA5)) = Done 0)
    by reflexivity.
  assert (Hr : reads_of GpioTest.GPIO_ADDR
                        (trace (run 30 GpioTest.main (fun _ : Z => 0))) =
               reads_of GpioTest.GPIO_ADDR
                        (trace (run 40 GpioTest.main (Stuck 0xA5))))
    by reflexivity.
  split; [exact H1|]. split; [exact H2|]. split; [exact Hr|].
  destruct (gpio_output_determined regfile stuck readback_dev stuck_dev
              (fun _ : Z => 0) (Stuck 0xA5) 30 40) as (Ha & _).
  exact (Ha 0 0 H1 H2 Hr).
Defined.

(** * Further properties of the code *)

(** Whether the memory [s] holds a terminator. *)
Definition has_nul (s : list ascii) : bool :=
  existsb (fun c => Ascii.eqb c zero) s.

(** The values a trace stored to register [a], in order. *)
Definition writes_of (a : Z) (tr : list obs) : list Z :=
  flat_map (fun o => match o with
                     | OStore a' v => if a' =? a then [v] else []
                     | _ => []
                     end) tr.

(** A store of a non-zero byte to the UART of gpio_test.c. *)
Definition uart_byte (o : obs) : Prop :=
  exists v, o = OStore GpioTest.UART_ADDR v /\ 1 <= v <= 255.

(** ** The runner and the monad laws *)

Section Laws.

Context {D : Type} `{Device D}.

Lemma and_then_ext {R T} (r : result D R) (k1 k2 : R -> nat -> D -> result D T) :
  (forall x n d, k1 x n d = k2 x n d) -> and_then r k1 = and_then r k2.
Proof. intros Hk. unfold and_then. destruct (out r); now rewrite ?Hk. Qed.

Lemma and_then_assoc {R T U} (r : result D R)
      (f : R -> nat -> D -> result D T) (g : T -> nat -> D -> result D U) :
  and_then (and_then r f) g = and_then r (fun x n d => and_then (f x n d) g).
Proof.
  unfold and_then at 2 3. destruct (out r) as [x| |]; [|reflexivity..].
  unfold and_then. cbn [out trace final left_fuel].
  destruct (out (f x (left_fuel r) (final r))); cbn [out trace final left_fuel];
    now rewrite ?app_assoc.
Qed.

Lemma run_bind_bind {R T U} (t : itree mmioE R) (f : R -> itree mmioE T)
      (k : T -> itree mmioE U) fuel (d : D) :
  run fuel (ITree.bind (ITree.bind t f) k) d =
  run fuel (ITree.bind t (fun x => ITree.bind (f x) k)) d.
Proof.
  rewrite !run_bind, and_then_assoc. apply and_then_ext.
  intros x n d'. now rewrite run_bind.
Qed.

End Laws.

(** ** gpio_test.c: the entry stub *)

Lemma run_idle {D} `{Device D} {R} fuel (d : D) :
  run fuel (@ITree.forever mmioE unit R (Ret tt)) d = mkResult [] d OutOfFuel O.
Proof.
  induction fuel as [|n IH]; [reflexivity|].
  rewrite (run_observe _ _ _ _ (observe_forever (Ret tt))), run_ret_bind.
  rewrite run_S. exact IH.
Qed.

(** X1: [_start] never returns and never faults, and it does nothing beyond
    what [main] does: with any fuel its trace and its effect on the device are
    those of [main] with that fuel, so that once [main] has returned, after 29
    events, the trace stays what it was at the [ecall]. *)
Theorem start_runs_main_then_idles (D : Type) (dev : Device D) (d : D)
        (fuel n : nat) :
  out (run fuel GpioTest._start d) = OutOfFuel /\
  trace (run fuel GpioTest._start d) = trace (run fuel GpioTest.main d) /\
  final (run fuel GpioTest._start d) = final (run fuel GpioTest.main d) /\
  trace (run (S (29 + n)) GpioTest._start d) = trace (run 30 GpioTest.main d).
Proof.
  assert (Hs : forall k,
    out (run k GpioTest._start d) = OutOfFuel /\
    trace (run k GpioTest._start d) = trace (run k GpioTest.main d) /\
    final (run k GpioTest._start d) = final (run k GpioTest.main d)).
  { intros k. unfold GpioTest._start. rewrite run_bind. unfold and_then.
    destruct (exec_main d) as [d' He].
    pose proof (exec_no_fault _ _ _ _ _ _ k He) as Hnf.
    destruct (out (run k GpioTest.main d)) as [x| |] eqn:Ho.
    - rewrite run_idle. cbn [out trace final]. now rewrite app_nil_r.
    - congruence.
    - now cbn [out trace final]. }
  destruct (Hs fuel) as (Ho & Ht & Hf).
  split; [exact Ho|]. split; [exact Ht|]. split; [exact Hf|].
  destruct (Hs (S (29 + n))) as (_ & -> & _).
  destruct (exec_main d) as [d' He].
  rewrite (He n). change 30%nat with (S (29 + 0)). now rewrite (He 0%nat).
Qed.

(** ** gpio_test.c: [print_string] on arbitrary memory *)

Section PrintStringMemory.

Context {D : Type} `{Device D}.

Import GpioTest.

Lemma run_print_string s n (d : D) :
  run (S (List.length s + n)) (print_string s) d =
  mkResult (uart_stores UART_ADDR (until_nul s))
           (feed UART_ADDR (map char_code (until_nul s)) d)
           (if has_nul s then Done tt else Fault)
           (if has_nul s
            then S (List.length s - List.length (until_nul s) + n)
            else n).
Proof.
  revert d. induction s as [|c s IH]; intros d; [reflexivity|].
  cbn [print_string until_nul has_nul existsb List.length].
  destruct (Ascii.eqb c zero) eqn:Hc.
  - cbn [orb List.length]. rewrite Nat.sub_0_r. reflexivity.
  - cbn [orb List.length map uart_stores]. unfold uart_putc.
    change (S (S (List.length s) + n)) with (S (S (List.length s + n))).
    rewrite run_store_then, IH. unfold emit. cbn [trace final out left_fuel feed fold_left].
    fold (has_nul s). destruct (has_nul s); reflexivity.
Qed.

End PrintStringMemory.

Lemma until_nul_nonzero s : Forall (fun c => c <> zero) (until_nul s).
Proof.
  induction s as [|c s IH]; [constructor|].
  cbn [until_nul]. destruct (Ascii.eqb c zero) eqn:Hc; [constructor|].
  constructor; [now apply Ascii.eqb_neq | exact IH].
Qed.

Lemma until_nul_no_nul s : has_nul s = false -> until_nul s = s.
Proof.
  induction s as [|c s IH]; [reflexivity|].
  cbn [has_nul existsb until_nul]. destruct (Ascii.eqb c zero); [discriminate|].
  cbn [orb]. intros Hs. f_equal. now apply IH.
Qed.

Lemma char_code_byte c : c <> zero -> 1 <= char_code c <= 255.
Proof.
  intros Hc. unfold char_code.
  pose proof (N_ascii_bounded c) as Hb.
  assert (Hz : N_of_ascii c <> 0%N).
  { intros Hz. apply Hc. rewrite <- (ascii_N_embedding c), Hz. reflexivity. }
  lia.
Qed.

Lemma char_code_inj c1 c2 : char_code c1 = char_code c2 -> c1 = c2.
Proof.
  unfold char_code. intros Hc. apply N2Z.inj in Hc.
  now rewrite <- (ascii_N_embedding c1), <- (ascii_N_embedding c2), Hc.
Qed.

Lemma uart_stores_bytes cs :
  Forall (fun c => c <> zero) cs ->
  Forall uart_byte (uart_stores GpioTest.UART_ADDR cs).
Proof.
  induction 1 as [|c cs Hc _ IH]; constructor; [|exact IH].
  exists (char_code c). split; [reflexivity | now apply char_code_byte].
Qed.

(** X2: on any memory [s], [print_string] writes exactly the characters that
    come before the first zero byte.  If there is a zero byte it returns
    there; if there is none, it writes all of [s] and then reads past the end
    of the object. *)
Theorem print_string_any_memory (s : list ascii)
        (D : Type) (dev : Device D) (d : D) (n : nat) :
  let r := run (S (List.length s + n)) (GpioTest.print_string s) d in
  trace r = uart_stores GpioTest.UART_ADDR (until_nul s) /\
  out r = (if has_nul s then Done tt else Fault) /\
  (has_nul s = false -> trace r = uart_stores GpioTest.UART_ADDR s).
Proof.
  intros r. subst r. rewrite run_print_string. cbn [trace out].
  split; [reflexivity|]. split; [reflexivity|].
  intros Hs. now rewrite until_nul_no_nul.
Qed.

Lemma print_string_any_memory_witness :
  has_nul (list_ascii_of_string "ab") = false /\
  trace (run 3 (GpioTest.print_string (list_ascii_of_string "ab")) (Stuck 0))
  = uart_stores GpioTest.UART_ADDR (list_ascii_of_string "ab").
Proof.
  assert (Hs : has_nul (list_ascii_of_string "ab") = false) by reflexivity.
  split; [exact Hs|].
  destruct (print_string_any_memory (list_ascii_of_string "ab")
                                    stuck stuck_dev (Stuck 0) 0)
    as (_ & _ & Ht).
  exact (Ht Hs).
Defined.

(** X3: whatever the memory and however long it runs, [print_string] does
    nothing but store to the UART data register, and every value it stores
    there is a byte between 1 and 255: it loads no register, and it never
    sends the zero byte. *)
Theorem print_string_sends_bytes (s : list ascii)
        (D : Type) (dev : Device D) (d : D) (fuel : nat) :
  Forall uart_byte (trace (run fuel (GpioTest.print_string s) d)).
Proof.
  destruct (run_trace_prefix (GpioTest.print_string s) fuel
                             (S (List.length s)) d) as [rest Hr].
  replace (fuel + S (List.length s))%nat
    with (S (List.length s + fuel)) in Hr by lia.
  rewrite run_print_string in Hr. cbn [trace] in Hr.
  pose proof (uart_stores_bytes _ (until_nul_nonzero s)) as Hall.
  rewrite Hr in Hall. now apply Forall_app in Hall.
Qed.

(** X4: printing a terminated string and then a second piece of memory is the
    same, at every amount of fuel, as printing the memory in which the second
    piece takes the place of the first terminator. *)
Theorem print_string_twice (cs rest s2 : list ascii)
        (Hcs : Forall (fun c => c <> zero) cs)
        (D : Type) (dev : Device D) (d : D) (fuel : nat) :
  run fuel (GpioTest.print_string (cs ++ zero :: rest) ;;
            GpioTest.print_string s2) d =
  run fuel (GpioTest.print_string (cs ++ s2)) d.
Proof.
  revert d fuel. induction Hcs as [|c cs Hc _ IH]; intros d fuel.
  - cbn [app GpioTest.print_string]. rewrite Ascii.eqb_refl.
    now rewrite run_ret_bind.
  - cbn [app GpioTest.print_string]. apply Ascii.eqb_neq in Hc. rewrite Hc.
    rewrite run_bind_bind. destruct fuel as [|k]; [reflexivity|].
    unfold GpioTest.uart_putc. rewrite !run_store_then. f_equal. apply IH.
Qed.

Lemma print_string_twice_witness :
  Forall (fun c => c <> zero) (list_ascii_of_string "ab") /\
  trace (run 9 (GpioTest.print_string (cstr "ab") ;;
                GpioTest.print_string (cstr "c")) (Stuck 0)) =
  uart_stores GpioTest.UART_ADDR (list_ascii_of_string "abc").
Proof.
  assert (Hcs : Forall (fun c => c <> zero) (list_ascii_of_string "ab"))
    by (repeat constructor; discriminate).
  split; [exact Hcs|].
  pose proof (print_string_twice (list_ascii_of_string "ab") [] (cstr "c") Hcs
                                 stuck stuck_dev (Stuck 0) 9) as Hw.
  exact (eq_trans (f_equal trace Hw) eq_refl).
Defined.

(** ** gpio_test.c: the line on the UART *)

(** A character code of visible ASCII text, the space included. *)
Definition printable (c : Z) : Prop := 32 <= c <= 126.

Lemma wrap32_u32 v : is_u32 (wrap32 v).
Proof. unfold is_u32, wrap32. apply Z.mod_pos_bound. lia. Qed.

Lemma map_char_code_inj cs1 cs2 :
  map char_code cs1 = map char_code cs2 -> cs1 = cs2.
Proof.
  revert cs2. induction cs1 as [|c cs1 IH]; intros [|c2 cs2] Hm;
    try discriminate; [reflexivity|].
  cbn [map] in Hm. injection Hm as Hc Hm.
  f_equal; [now apply char_code_inj | now apply IH].
Qed.

Lemma report_inj label v1 v2 :
  is_u32 v1 -> is_u32 v2 -> report label v1 = report label v2 -> v1 = v2.
Proof.
  unfold report. intros H1 H2 Hr.
  apply app_inv_head, app_inv_tail, map_char_code_inj in Hr.
  apply (f_equal hex_value) in Hr.
  rewrite !hex_value_hex8 in Hr by assumption. now injection Hr.
Qed.

Lemma hex_digit_printable n : 0 <= n < 16 -> printable (char_code (hex_digit n)).
Proof.
  revert n. apply nibble_cases. unfold printable.
  repeat (apply Forall_cons; [vm_compute; split; discriminate|]).
  apply Forall_nil.
Qed.

Lemma readback_test_value (D : Type) (dev : Device D) (d : D) fuel x :
  out (run fuel GpioTest.main d) = Done x ->
  reads_of GpioTest.GPIO_ADDR (trace (run fuel GpioTest.main d)) =
  [wrap32 (fst (dev_load GpioTest.GPIO_ADDR
                         (dev_store GpioTest.GPIO_ADDR 0xA5 d)))].
Proof.
  intros Hd. destruct (exec_main d) as [d' He].
  destruct (exec_done _ _ _ _ _ _ _ _ He Hd) as (-> & _ & _).
  change (reads_of GpioTest.GPIO_ADDR
            (OStore GpioTest.GPIO_ADDR 165 :: OBarrier
             :: OLoad GpioTest.GPIO_ADDR ?v :: ?tr))
    with (v :: reads_of GpioTest.GPIO_ADDR tr).
  now rewrite !reads_of_app, !reads_of_uart_stores.
Qed.

(** X5: the line the readback test prints identifies the value it read: two
    complete runs, on any two devices, that sent the same characters to the
    UART loaded the same value from the GPIO register. *)
Theorem readback_line_identifies_value
        (D1 D2 : Type) (dev1 : Device D1) (dev2 : Device D2)
        (d1 : D1) (d2 : D2) (f1 f2 : nat) (x1 x2 : Z)
        (H1 : out (run f1 GpioTest.main d1) = Done x1)
        (H2 : out (run f2 GpioTest.main d2) = Done x2)
        (Hu : uart_chars GpioTest.UART_ADDR (trace (run f1 GpioTest.main d1)) =
              uart_chars GpioTest.UART_ADDR (trace (run f2 GpioTest.main d2))) :
  reads_of GpioTest.GPIO_ADDR (trace (run f1 GpioTest.main d1)) =
  reads_of GpioTest.GPIO_ADDR (trace (run f2 GpioTest.main d2)).
Proof.
  destruct (readback_test_report _ _ _ _ _ H1) as (v1 & Hv1 & Hr1).
  destruct (readback_test_report _ _ _ _ _ H2) as (v2 & Hv2 & Hr2).
  pose proof (readback_test_value _ _ _ _ _ H1) as Hw1.
  pose proof (readback_test_value _ _ _ _ _ H2) as Hw2.
  rewrite Hv1, Hv2. f_equal.
  apply (report_inj "GPIO readback = ").
  - rewrite Hv1 in Hw1. injection Hw1 as ->. apply wrap32_u32.
  - rewrite Hv2 in Hw2. injection Hw2 as ->. apply wrap32_u32.
  - congruence.
Qed.

Lemma readback_line_identifies_value_witness :
  out (run 30 GpioTest.main (fun _ : Z => 7)) = Done 0 /\
  out (run 35 GpioTest.main (Stuck 0xA5)) = Done 0 /\
  uart_chars GpioTest.UART_ADDR (trace (run 30 GpioTest.main (fun _ : Z => 7))) =
  uart_chars GpioTest.UART_ADDR (trace (run 35 GpioTest.main (Stuck 0xA5))) /\
  reads_of GpioTest.GPIO_ADDR (trace (run 30 GpioTest.main (fun _ : Z => 7))) =
  reads_of GpioTest.GPIO_ADDR (trace (run 35 GpioTest.main (Stuck 0xA5))).
Proof.
  assert (H1 : out (run 30 GpioTest.main (fun _ : Z => 7)) = Done 0)
    by reflexivity.
  assert (H2 : out (run 35 GpioTest.main (Stuck 0xA5)) = Done 0)
    by reflexivity.
  assert (Hu : uart_chars GpioTest.UART_ADDR
                          (trace (run 30 GpioTest.main (fun _ : Z => 7))) =
               uart_chars GpioTest.UART_ADDR
                          (trace (run 35 GpioTest.main (Stuck 0xA5))))
    by reflexivity.
  split; [exact H1|]. split; [exact H2|]. split; [exact Hu|].
  exact (readback_line_identifies_value regfile stuck readback_dev stuck_dev
           (fun _ : Z => 7) (Stuck 0xA5) 30 35 0 0 H1 H2 Hu).
Defined.

(** X6: whatever value the hardware answers, a complete run of the readback
    test sends one line of fixed width to the UART: 24 characters of visible
    ASCII text followed by a single line feed. *)
Theorem readback_line_is_text (D : Type) (dev : Device D) (d : D)
        (fuel : nat) (x : Z)
        (Hd : out (run fuel GpioTest.main d) = Done x) :
  exists body,
    uart_chars GpioTest.UART_ADDR (trace (run fuel GpioTest.main d)) =
    body ++ [char_code LF] /\
    List.length body = 24%nat /\
    Forall printable body.
Proof.
  destruct (readback_test_report _ _ _ _ _ Hd) as (v & _ & ->).
  exists (codes "GPIO readback = " ++ map char_code (hex8 v)).
  split; [unfold report; now rewrite app_assoc|].
  split; [reflexivity|].
  apply Forall_app. split.
  - unfold printable.
    repeat (apply Forall_cons; [vm_compute; split; discriminate|]).
    apply Forall_nil.
  - unfold hex8. cbn [map].
    repeat (apply Forall_cons; [apply hex_digit_printable, nibble_range|]).
    apply Forall_nil.
Qed.

Lemma readback_line_is_text_witness :
  out (run 30 GpioTest.main (Stuck 0xDEADBEEF)) = Done 0 /\
  exists body,
    uart_chars GpioTest.UART_ADDR
               (trace (run 30 GpioTest.main (Stuck 0xDEADBEEF))) =
    body ++ [char_code LF] /\
    List.length body = 24%nat /\
    Forall printable body.
Proof.
  assert (Hd : out (run 30 GpioTest.main (Stuck 0xDEADBEEF)) = Done 0)
    by reflexivity.
  split; [exact Hd|].
  exact (readback_line_is_text stuck stuck_dev (Stuck 0xDEADBEEF) 30 0 Hd).
Defined.

(** ** timer_test2.c on a peripheral that keeps what is written *)

Lemma testbit0_wrap32 s : Z.testbit (wrap32 s) 0 = Z.testbit s 0.
Proof. unfold wrap32. apply Z.mod_pow2_bits_low. lia. Qed.

(** X7: on a peripheral that keeps what is written, the configuration the
    timer test sets up stays in place however long the loop polls: from the
    third store on, the control register holds [0x3] and the load register
    [12000000]; and apart from the three timer registers no register is ever
    changed. *)
Theorem timer_configuration_stays (rf : regfile) (n : nat) (a : Z)
        (Hc : a <> TimerTest.TIMER_CTRL) (Hl : a <> TimerTest.TIMER_LOAD)
        (Hs : a <> TimerTest.TIMER_STAT) :
  final (run (3 + n) TimerTest.main rf) TimerTest.TIMER_CTRL = 0x3 /\
  final (run (3 + n) TimerTest.main rf) TimerTest.TIMER_LOAD = 12000000 /\
  final (run (3 + n) TimerTest.main rf) a = rf a.
Proof.
  assert (Hloop : forall k (d0 : regfile) b,
            b <> TimerTest.TIMER_STAT ->
            final (run k TimerTest.poll_loop d0) b = d0 b).
  { apply (poll_loop_runs (fun _ (d0 : regfile) r =>
             forall b, b <> TimerTest.TIMER_STAT -> final r b = d0 b)).
    - reflexivity.
    - intros k d0 s d1 _ IH b Hb. rewrite final_emit. now apply IH.
    - reflexivity.
    - intros m d0 s d2 _ IH b Hb. rewrite !final_emit, IH by exact Hb.
      subst d2.
      change ((if b =? TimerTest.TIMER_STAT then 1 else d0 b) = d0 b).
      apply Z.eqb_neq in Hb. now rewrite Hb. }
  rewrite run_main_init, !final_emit.
  rewrite !Hloop by (exact Hs || discriminate).
  split; [reflexivity|]. split; [reflexivity|].
  change ((if a =? TimerTest.TIMER_CTRL then 3
           else if a =? TimerTest.TIMER_LOAD then 12000000
                else if a =? TimerTest.TIMER_CTRL then 0 else rf a) = rf a).
  apply Z.eqb_neq in Hc, Hl. now rewrite Hc, Hl.
Qed.

Lemma timer_configuration_stays_witness :
  0x00400020 <> TimerTest.TIMER_CTRL /\
  0x00400020 <> TimerTest.TIMER_LOAD /\
  0x00400020 <> TimerTest.TIMER_STAT /\
  final (run 40 TimerTest.main (fun _ : Z => 0xFF)) TimerTest.TIMER_CTRL = 0x3 /\
  final (run 40 TimerTest.main (fun _ : Z => 0xFF)) 0x00400020 = 0xFF.
Proof.
  assert (Hc : 0x00400020 <> TimerTest.TIMER_CTRL) by discriminate.
  assert (Hl : 0x00400020 <> TimerTest.TIMER_LOAD) by discriminate.
  assert (Hs : 0x00400020 <> TimerTest.TIMER_STAT) by discriminate.
  split; [exact Hc|]. split; [exact Hl|]. split; [exact Hs|].
  destruct (timer_configuration_stays (fun _ : Z => 0xFF) 37 0x00400020 Hc Hl Hs)
    as (H1 & _ & H3).
  split; [exact H1 | exact H3].
Defined.

(** ** timer_test2.c on a write-1-to-clear timer that raises its flags *)

(** Modelled from the spec: a timer whose status register is
    write-1-to-clear (sections 3 and 4.4) and whose hardware sets status bits
    of its own accord, a timeout being bit 0.  Time passes with the accesses:
    at every load and store, before it takes effect, the hardware sets the
    bits of the next entry of [raises]; when the entries are used up it sets
    nothing more.  What the control and load registers do to the timing is
    part of [raises]; registers other than the status register read as
    zero. *)
Record w1c_live : Type := Live { live_status : Z; raises : list Z }.

#[global] Instance w1c_live_dev : Device w1c_live := {
  dev_load a d :=
    let s := Z.lor (live_status d) (hd 0 (raises d)) in
    (if a =? TimerTest.TIMER_STAT then s else 0, Live s (tl (raises d)));
  dev_store a v d :=
    let s := Z.lor (live_status d) (hd 0 (raises d)) in
    Live (if a =? TimerTest.TIMER_STAT then w1c s v else s) (tl (raises d))
}.

(** The hardware raises no timeout: bit 0 is clear in all that it sets. *)
Definition no_timeout (ms : list Z) : Prop :=
  Forall (fun m => Z.testbit m 0 = false) ms.

Lemma no_timeout_hd ms : no_timeout ms -> Z.testbit (hd 0 ms) 0 = false.
Proof. intros [|m ms' Hm _]; [reflexivity | exact Hm]. Qed.

Lemma no_timeout_tl ms : no_timeout ms -> no_timeout (tl ms).
Proof. intros [|m ms' _ Hms]; [constructor | exact Hms]. Qed.

(** The status after the hardware has had its turn at an access. *)
Lemma raised_bit0 st ms :
  no_timeout ms -> Z.testbit (Z.lor st (hd 0 ms)) 0 = Z.testbit st 0.
Proof.
  intros Hq. rewrite Z.lor_spec, (no_timeout_hd _ Hq). apply orb_false_r.
Qed.

Lemma live_store_elsewhere a v (d : w1c_live) :
  a <> TimerTest.TIMER_STAT ->
  dev_store a v d =
  Live (Z.lor (live_status d) (hd 0 (raises d))) (tl (raises d)).
Proof.
  intros Ha. apply Z.eqb_neq in Ha.
  change (dev_store a v d)
    with (Live (if a =? TimerTest.TIMER_STAT
                then w1c (Z.lor (live_status d) (hd 0 (raises d))) v
                else Z.lor (live_status d) (hd 0 (raises d)))
               (tl (raises d))).
  now rewrite Ha.
Qed.

Lemma poll_loop_quiet (d : w1c_live) fuel :
  Z.testbit (live_status d) 0 = false ->
  no_timeout (raises d) ->
  writes_of TimerTest.TIMER_STAT (trace (run fuel TimerTest.poll_loop d)) = [] /\
  Z.testbit (live_status (final (run fuel TimerTest.poll_loop d))) 0 = false.
Proof.
  revert fuel d.
  apply (poll_loop_runs (fun _ (d0 : w1c_live) r =>
           Z.testbit (live_status d0) 0 = false ->
           no_timeout (raises d0) ->
           writes_of TimerTest.TIMER_STAT (trace r) = [] /\
           Z.testbit (live_status (final r)) 0 = false)).
  - intros d0 Hs _. now split.
  - intros k d0 s d1 _ IH Hs Hq. rewrite final_emit, trace_emit.
    apply IH.
    + subst d1. cbn [dev_load w1c_live_dev snd live_status].
      now rewrite raised_bit0.
    + subst d1. cbn [dev_load w1c_live_dev snd raises]. now apply no_timeout_tl.
  - intros d0 s d1 Hb Hs Hq. subst s.
    change (fst (dev_load TimerTest.TIMER_STAT d0))
      with (Z.lor (live_status d0) (hd 0 (raises d0))) in Hb.
    rewrite testbit0_wrap32, raised_bit0 in Hb by exact Hq. congruence.
  - intros m d0 s d2 Hb _ Hs Hq. subst s.
    change (fst (dev_load TimerTest.TIMER_STAT d0))
      with (Z.lor (live_status d0) (hd 0 (raises d0))) in Hb.
    rewrite testbit0_wrap32, raised_bit0 in Hb by exact Hq. congruence.
Qed.

(** The three stores that configure the timer leave bit 0 of the status as
    it is when the hardware raises no timeout. *)
Lemma live_init (d : w1c_live) :
  no_timeout (raises d) ->
  let d3 := dev_store TimerTest.TIMER_CTRL 0x3
              (dev_store TimerTest.TIMER_LOAD 12000000
                 (dev_store TimerTest.TIMER_CTRL 0 d)) in
  Z.testbit (live_status d3) 0 = Z.testbit (live_status d) 0 /\
  no_timeout (raises d3).
Proof.
  intros Hq d3. subst d3.
  rewrite !live_store_elsewhere by discriminate.
  cbn [live_status raises].
  pose proof (no_timeout_tl _ Hq) as Hq1.
  pose proof (no_timeout_tl _ Hq1) as Hq2.
  pose proof (no_timeout_tl _ Hq2) as Hq3.
  split; [|exact Hq3].
  now rewrite !raised_bit0 by assumption.
Qed.

Lemma lor_keeps st m i : Z.testbit st i = true -> Z.testbit (Z.lor st m) i = true.
Proof. intros Hs. now rewrite Z.lor_spec, Hs. Qed.

(** Whatever the hardware raises meanwhile, a timeout that is pending is
    still pending after the three stores that configure the timer. *)
Lemma live_init_pending (d : w1c_live) :
  Z.testbit (live_status d) 0 = true ->
  Z.testbit (live_status
               (dev_store TimerTest.TIMER_CTRL 0x3
                  (dev_store TimerTest.TIMER_LOAD 12000000
                     (dev_store TimerTest.TIMER_CTRL 0 d)))) 0 = true.
Proof.
  intros Hp. rewrite !live_store_elsewhere by discriminate.
  cbn [live_status raises]. now repeat apply lor_keeps.
Qed.

(** X8: on a write-1-to-clear timer whose hardware may set status bits at
    any access, a timeout that is pending when the test starts is cleared by
    the first turn of the loop, whatever the hardware raises meanwhile: the
    first five steps are the three configuring stores, a load of the status
    and one store of 1 to it, after which bit 0 is clear.  If the hardware
    raises no further timeout during the run, that store is the only one: at
    every fuel from five on, the trace holds exactly one store to the status
    register, and bit 0 of the register is clear. *)
Theorem pending_timeout_cleared_once (d : w1c_live) (n : nat)
        (Hp : Z.testbit (live_status d) 0 = true) :
  (writes_of TimerTest.TIMER_STAT (trace (run 5 TimerTest.main d)) = [1] /\
   List.length (trace (run 5 TimerTest.main d)) = 5%nat /\
   Z.testbit (live_status (final (run 5 TimerTest.main d))) 0 = false) /\
  (no_timeout (raises d) ->
   writes_of TimerTest.TIMER_STAT (trace (run (5 + n) TimerTest.main d)) = [1] /\
   Z.testbit (live_status (final (run (5 + n) TimerTest.main d))) 0 = false).
Proof.
  pose proof (live_init_pending d Hp) as Hs3.
  assert (Hturn : forall m,
    run (3 + S (S m)) TimerTest.main d =
    let d3 := dev_store TimerTest.TIMER_CTRL 0x3
                (dev_store TimerTest.TIMER_LOAD 12000000
                   (dev_store TimerTest.TIMER_CTRL 0 d)) in
    let d5 := dev_store TimerTest.TIMER_STAT 1
                (snd (dev_load TimerTest.TIMER_STAT d3)) in
    emit (OStore TimerTest.TIMER_CTRL 0)
      (emit (OStore TimerTest.TIMER_LOAD 12000000)
         (emit (OStore TimerTest.TIMER_CTRL 0x3)
            (emit (OLoad TimerTest.TIMER_STAT
                         (wrap32 (fst (dev_load TimerTest.TIMER_STAT d3))))
               (emit (OStore TimerTest.TIMER_STAT 1)
                  (run (pred m) TimerTest.poll_loop d5)))))).
  { intros m. rewrite run_main_init, run_poll_loop_S. cbv zeta.
    set (d3 := dev_store TimerTest.TIMER_CTRL 3 _) in *.
    change (fst (dev_load TimerTest.TIMER_STAT d3))
      with (Z.lor (live_status d3) (hd 0 (raises d3))).
    now rewrite testbit0_wrap32, lor_keeps by exact Hs3. }
  split.
  - change 5%nat with (3 + S (S 0))%nat. rewrite Hturn. cbv zeta.
    rewrite !final_emit, !trace_emit.
    split; [reflexivity|]. split; [reflexivity|]. apply w1c_one_bit0.
  - intros Hq. change (5 + n)%nat with (3 + S (S n))%nat.
    rewrite Hturn. cbv zeta. rewrite !final_emit, !trace_emit.
    destruct (live_init d Hq) as (_ & Hq3). cbv zeta in Hq3.
    set (d3 := dev_store TimerTest.TIMER_CTRL 3 _) in *.
    set (d5 := dev_store TimerTest.TIMER_STAT 1 _).
    destruct (poll_loop_quiet d5 (pred n)) as (Hw & Hf).
    + apply w1c_one_bit0.
    + subst d5. cbn [dev_store dev_load w1c_live_dev snd raises].
      now apply no_timeout_tl, no_timeout_tl.
    + split; [|exact Hf].
      change (writes_of TimerTest.TIMER_STAT (?o1 :: ?o2 :: ?o3 :: ?o4
                :: OStore TimerTest.TIMER_STAT 1 :: ?tr))
        with (1 :: writes_of TimerTest.TIMER_STAT tr).
      now rewrite Hw.
Qed.

Lemma pending_timeout_cleared_once_witness :
  Z.testbit (live_status (Live 0xF5 [0x2; 0; 0x10])) 0 = true /\
  no_timeout (raises (Live 0xF5 [0x2; 0; 0x10])) /\
  writes_of TimerTest.TIMER_STAT
            (trace (run 9 TimerTest.main (Live 0xF5 [0x2; 0; 0x10]))) = [1].
Proof.
  assert (Hp : Z.testbit (live_status (Live 0xF5 [0x2; 0; 0x10])) 0 = true)
    by reflexivity.
  assert (Hq : no_timeout (raises (Live 0xF5 [0x2; 0; 0x10])))
    by (repeat constructor).
  split; [exact Hp|]. split; [exact Hq|].
  destruct (pending_timeout_cleared_once (Live 0xF5 [0x2; 0; 0x10]) 4 Hp)
    as (_ & Hn).
  destruct (Hn Hq) as (Hw & _).
  exact Hw.
Defined.

(** X9: on the same timer, the test writes the status register only in
    answer to a timeout: if bit 0 of the status is clear at the start and the
    hardware raises no timeout during the run, then no run of whatever length
    stores to the status register, and bit 0 is still clear at its end. *)
Theorem no_timeout_no_write (d : w1c_live) (fuel : nat)
        (Hs : Z.testbit (live_status d) 0 = false)
        (Hq : no_timeout (raises d)) :
  writes_of TimerTest.TIMER_STAT (trace (run fuel TimerTest.main d)) = [] /\
  Z.testbit (live_status (final (run fuel TimerTest.main d))) 0 = false.
Proof.
  pose proof (no_timeout_tl _ Hq) as Hq1.
  destruct (run_main_cases fuel d)
    as [(_ & ->) | [(_ & ->) | [(_ & ->) | (k & ->)]]].
  - now split.
  - split; [reflexivity|]. rewrite final_emit. cbn [final].
    rewrite live_store_elsewhere by discriminate. cbn [live_status].
    now rewrite raised_bit0.
  - split; [reflexivity|]. rewrite !final_emit. cbn [final].
    rewrite !live_store_elsewhere by discriminate. cbn [live_status raises].
    now rewrite !raised_bit0 by assumption.
  - rewrite run_main_init, !final_emit, !trace_emit.
    destruct (live_init d Hq) as (Hs3 & Hq3). cbv zeta in Hs3, Hq3.
    rewrite Hs in Hs3.
    destruct (poll_loop_quiet _ k Hs3 Hq3) as (Hw & Hf).
    split; [exact Hw | exact Hf].
Qed.

Lemma no_timeout_no_write_witness :
  Z.testbit (live_status (Live 0xF4 [0x8; 0x2])) 0 = false /\
  no_timeout (raises (Live 0xF4 [0x8; 0x2])) /\
  writes_of TimerTest.TIMER_STAT
            (trace (run 50 TimerTest.main (Live 0xF4 [0x8; 0x2]))) = [].
Proof.
  assert (Hs : Z.testbit (live_status (Live 0xF4 [0x8; 0x2])) 0 = false)
    by reflexivity.
  assert (Hq : no_timeout (raises (Live 0xF4 [0x8; 0x2])))
    by (repeat constructor).
  split; [exact Hs|]. split; [exact Hq|].
  destruct (no_timeout_no_write (Live 0xF4 [0x8; 0x2]) 50 Hs Hq) as (Hw & _).
  exact Hw.
Defined.

(** ** gpio_ctrl_test.c: the register accesses, whatever the printers *)

(** X10: the register accesses of the direction/write/read test do not depend
    on the printers it is linked with.  With any implementation of the two
    printers of [io.h], the test stores [0x1F] to the direction register and
    [0xA] to the data register, then spends a thousand steps in the delay loop
    without any event (at every fuel from 2 to 1002 the run consists of the
    two stores), and at step 1003 loads the read register; every longer run
    begins with these three accesses.  On a peripheral that only keeps what is
    written, the value loaded is what the read register held before the test,
    not the pattern written to the data register. *)
Theorem ctrl_test_accesses_first (io : IoH.Printers)
        (D : Type) (dev : Device D) (d : D) (n : nat) :
  let d2 := dev_store GpioCtrlTest.GPIO_DATA 0xA
                      (dev_store GpioCtrlTest.GPIO_DIR 0x1F d) in
  (forall k,
      run (2 + Nat.min k 1000) (@GpioCtrlTest.main io) d =
      mkResult [OStore GpioCtrlTest.GPIO_DIR 0x1F;
                OStore GpioCtrlTest.GPIO_DATA 0xA] d2 OutOfFuel O) /\
  run 1003 (@GpioCtrlTest.main io) d =
    mkResult [OStore GpioCtrlTest.GPIO_DIR 0x1F;
              OStore GpioCtrlTest.GPIO_DATA 0xA;
              OLoad GpioCtrlTest.GPIO_READ
                    (wrap32 (fst (dev_load GpioCtrlTest.GPIO_READ d2)))]
             (snd (dev_load GpioCtrlTest.GPIO_READ d2)) OutOfFuel O /\
  (exists rest,
      trace (run (1003 + n) (@GpioCtrlTest.main io) d) =
      [OStore GpioCtrlTest.GPIO_DIR 0x1F; OStore GpioCtrlTest.GPIO_DATA 0xA;
       OLoad GpioCtrlTest.GPIO_READ
             (wrap32 (fst (dev_load GpioCtrlTest.GPIO_READ d2)))] ++ rest) /\
  forall rf : regfile,
    run 1003 (@GpioCtrlTest.main io) rf =
    mkResult [OStore GpioCtrlTest.GPIO_DIR 0x1F;
              OStore GpioCtrlTest.GPIO_DATA 0xA;
              OLoad GpioCtrlTest.GPIO_READ (wrap32 (rf GpioCtrlTest.GPIO_READ))]
             (dev_store GpioCtrlTest.GPIO_DATA 0xA
                        (dev_store GpioCtrlTest.GPIO_DIR 0x1F rf))
             OutOfFuel O.
Proof.
  intros d2.
  split; [intros k; apply run_ctrl_main_waiting|].
  split; [apply run_ctrl_main_accesses|].
  split.
  - destruct (run_trace_prefix (@GpioCtrlTest.main io) 1003 n d) as [rest Hr].
    exists rest. rewrite Hr, run_ctrl_main_accesses. reflexivity.
  - intros rf. rewrite run_ctrl_main_accesses. reflexivity.
Qed.

(** ** gpio_test.c: [print_hex] can be read back *)

(** X11: [print_hex] loses nothing of a 32-bit value: if it sends the same
    characters for two values, on whatever devices, the values are equal. *)
Theorem print_hex_identifies_value (v1 v2 : Z)
        (H1 : is_u32 v1) (H2 : is_u32 v2)
        (D1 D2 : Type) (dev1 : Device D1) (dev2 : Device D2)
        (d1 : D1) (d2 : D2) (n1 n2 : nat)
        (Hu : uart_chars GpioTest.UART_ADDR
                (trace (run (S (8 + n1)) (GpioTest.print_hex v1) d1)) =
              uart_chars GpioTest.UART_ADDR
                (trace (run (S (8 + n2)) (GpioTest.print_hex v2) d2))) :
  v1 = v2.
Proof.
  rewrite (exec_print_hex v1 d1 n1), (exec_print_hex v2 d2 n2) in Hu.
  cbn [trace] in Hu. rewrite !uart_chars_stores in Hu.
  apply map_char_code_inj in Hu. apply (f_equal hex_value) in Hu.
  rewrite !hex_value_hex8 in Hu by assumption. now injection Hu.
Qed.

Lemma print_hex_identifies_value_witness :
  is_u32 0xA5 /\ is_u32 (0xA5 + 0) /\
  uart_chars GpioTest.UART_ADDR
    (trace (run 9 (GpioTest.print_hex 0xA5) (Stuck 0))) =
  uart_chars GpioTest.UART_ADDR
    (trace (run 13 (GpioTest.print_hex (0xA5 + 0)) (fun _ : Z => 1))) /\
  0xA5 = 0xA5 + 0.
Proof.
  assert (H1 : is_u32 0xA5) by (unfold is_u32; lia).
  assert (H2 : is_u32 (0xA5 + 0)) by (unfold is_u32; lia).
  assert (Hu : uart_chars GpioTest.UART_ADDR
                 (trace (run 9 (GpioTest.print_hex 0xA5) (Stuck 0))) =
               uart_chars GpioTest.UART_ADDR
                 (trace (run 13 (GpioTest.print_hex (0xA5 + 0))
                             (fun _ : Z => 1))))
    by reflexivity.
  split; [exact H1|]. split; [exact H2|]. split; [exact Hu|].
  exact (print_hex_identifies_value 0xA5 (0xA5 + 0) H1 H2
           stuck regfile stuck_dev readback_dev (Stuck 0) (fun _ : Z => 1)
           0 4 Hu).
Defined.

(** ** timer_test2.c on a status register that is not write-1-to-clear *)

Lemma poll_loop_rewrites (k : nat) (rf : regfile) :
  Z.testbit (rf TimerTest.TIMER_STAT) 0 = true ->
  writes_of TimerTest.TIMER_STAT (trace (run (3 * k) TimerTest.poll_loop rf)) =
  repeat 1 k.
Proof.
  revert rf. induction k as [|k IH]; intros rf Hb; [reflexivity|].
  replace (3 * S k)%nat with (S (S (S (3 * k)))) by lia.
  rewrite run_poll_loop_S. cbv zeta.
  change (fst (dev_load TimerTest.TIMER_STAT rf)) with (rf TimerTest.TIMER_STAT).
  change (snd (dev_load TimerTest.TIMER_STAT rf)) with rf.
  rewrite testbit0_wrap32, Hb. cbn [pred]. rewrite !trace_emit.
  change (writes_of TimerTest.TIMER_STAT
            (?o :: OStore TimerTest.TIMER_STAT 1 :: ?tr))
    with (1 :: writes_of TimerTest.TIMER_STAT tr).
  cbn [repeat]. f_equal. apply IH. reflexivity.
Qed.

(** X12: the test relies on the status register being write-1-to-clear.  On a
    peripheral that merely keeps what is written, a flagged status is never
    cleared by storing 1 to it, and the loop stores 1 again on every turn:
    after the three initial stores and [k] turns of three steps each, it has
    written [k] times to the status register. *)
Theorem flag_rewritten_without_w1c (rf : regfile) (k : nat)
        (Hb : Z.testbit (rf TimerTest.TIMER_STAT) 0 = true) :
  writes_of TimerTest.TIMER_STAT
            (trace (run (3 + 3 * k) TimerTest.main rf)) = repeat 1 k /\
  Z.testbit (final (run (3 + 3 * k) TimerTest.main rf) TimerTest.TIMER_STAT) 0
  = true.
Proof.
  rewrite run_main_init, !trace_emit, !final_emit.
  split.
  - change (writes_of TimerTest.TIMER_STAT (?o1 :: ?o2 :: ?o3 :: ?tr))
      with (writes_of TimerTest.TIMER_STAT tr).
    apply poll_loop_rewrites. exact Hb.
  - set (d3 := dev_store TimerTest.TIMER_CTRL 3 _).
    assert (Hd : Z.testbit (d3 TimerTest.TIMER_STAT) 0 = true) by exact Hb.
    clearbody d3. revert d3 Hd. generalize (3 * k)%nat.
    apply (poll_loop_runs (fun _ (d0 : regfile) r =>
             Z.testbit (d0 TimerTest.TIMER_STAT) 0 = true ->
             Z.testbit (final r TimerTest.TIMER_STAT) 0 = true)).
    + intros d0 Hd. exact Hd.
    + intros m d0 s d1 _ IH Hd. rewrite final_emit. now apply IH.
    + intros d0 s d1 _ Hd. exact Hd.
    + intros m d0 s d2 _ IH Hd. rewrite !final_emit. apply IH. reflexivity.
Qed.

Lemma flag_rewritten_without_w1c_witness :
  Z.testbit ((fun _ : Z => 1) TimerTest.TIMER_STAT) 0 = true /\
  writes_of TimerTest.TIMER_STAT
            (trace (run 12 TimerTest.main (fun _ : Z => 1))) = [1; 1; 1].
Proof.
  assert (Hb : Z.testbit ((fun _ : Z => 1) TimerTest.TIMER_STAT) 0 = true)
    by reflexivity.
  split; [exact Hb|].
  destruct (flag_rewritten_without_w1c (fun _ : Z => 1) 3 Hb) as (Hw & _).
  exact Hw.
Defined.
